(** * llama-stack: RAG tool configuration, the Groq inference adapter and the
      streaming tool-call parser

    A shallow embedding of

    - [llama_stack/apis/tools/rag_tool.py] (modules [RAGQueryGenerator] and
      [RagTool]),
    - [llama_stack/providers/remote/inference/groq/groq.py] (module [Groq]),
    - the streaming tool-call parser that the specification describes behind
      [convert_chat_completion_response_stream] (module [GroqUtils]),
    - the helpers of [tests/client-sdk/inference/test_text_inference.py]
      (module [TestTextInference]),

    followed by the properties the specification states about them (modules
    [RagToolFacts], [GroqFacts] and [GroqUtilsFacts]) and by further
    properties of the code (modules [GroqMoreFacts], [RagToolMoreFacts] and
    [TestTextInferenceFacts]).
    Python objects are modelled as values of [pyval]; a Python [dict] is a
    [gmap string pyval]; a call that may raise returns a [result]. *)

From Stdlib Require Import ZArith String Ascii List Lia.
From stdpp Require Import base option list strings gmap.

Set Warnings "-register-all".

Local Open Scope string_scope.
Local Open Scope Z_scope.

(** ** Python values and exceptions *)

(** The JSON-like part of Python's object universe: what a decoded HTTP body,
    a keyword-argument dictionary or a pydantic input can hold. *)
Inductive pyval : Type :=
| PyNone
| PyBool (b : bool)
| PyInt (z : Z)
| PyStr (s : string)
| PyList (l : list pyval)
| PyDict (d : gmap string pyval).

(** The exceptions that the embedded code raises or lets through.
    [ValueError] keeps its positional arguments and the exception it was
    raised [from] (its [__cause__]); [ValidationError] is pydantic's, with the
    location and the kind of its first error; [BadRequestError] and
    [APIError] are the Groq SDK's, each with the decoded response [body]. *)
Inductive exn : Type :=
| NotImplementedError
| ValueError (args : list pyval) (cause : option exn)
| AttributeError (msg : string)
| ValidationError (loc : string) (kind : string)
| BadRequestError (body : pyval)
| APIError (name : string) (body : pyval).

Inductive result (A : Type) : Type :=
| Ok (a : A)
| Raise (e : exn).
Arguments Ok {A} a.
Arguments Raise {A} e.

Definition is_ok {A} (r : result A) : bool :=
  match r with Ok _ => true | Raise _ => false end.

(** [type(obj).__name__] *)
Definition py_type_name (obj : pyval) : string :=
  match obj with
  | PyNone => "NoneType"
  | PyBool _ => "bool"
  | PyInt _ => "int"
  | PyStr _ => "str"
  | PyList _ => "list"
  | PyDict _ => "dict"
  end.

Definition no_attribute (obj : pyval) (attr : string) : exn :=
  AttributeError
    ("'" +:+ py_type_name obj +:+ "' object has no attribute '" +:+ attr +:+ "'").

(** [obj.get(key, default)]: defined on dictionaries only; on any other
    object the attribute lookup itself raises [AttributeError]. *)
Definition py_get (obj : pyval) (key : string) (dflt : pyval) : result pyval :=
  match obj with
  | PyDict d => Ok (default dflt (d !! key))
  | _ => Raise (no_attribute obj "get")
  end.

(** [a == b] against a string literal. *)
Definition py_eq_str (v : pyval) (s : string) : bool :=
  match v with
  | PyStr s' => bool_decide (s' = s)
  | _ => false
  end.

(** The double-quote character, for messages that contain it. *)
Definition dq : string := String "034"%char EmptyString.

(** ** [llama_stack/apis/tools/rag_tool.py] *)

Module RAGQueryGenerator.
(** [class RAGQueryGenerator(Enum)] *)
Inductive t : Type := default | llm | custom.

Definition value (g : t) : string :=
  match g with
  | default => "default"
  | llm => "llm"
  | custom => "custom"
  end.

Definition members : list t := [default; llm; custom].
End RAGQueryGenerator.

Module RagTool.

(** Modelled from the spec: [InterleavedContent] and [URL] are declared in
    [llama_stack/apis/common/content_types.py], which is not among the
    embedded sources. The spec describes content as "text or structured
    interleaved content: text spans, image refs". *)
Inductive InterleavedContentItem : Type :=
| TextContentItem (text : string)
| ImageContentItem (image : string).

Inductive InterleavedContent : Type :=
| ContentStr (s : string)
| ContentItem (i : InterleavedContentItem)
| ContentList (l : list InterleavedContentItem).

Record URL : Type := { uri : string }.

(** [class RAGDocument(BaseModel)] *)
Record RAGDocument : Type := {
  document_id : string;
  doc_content : InterleavedContent + URL;
  mime_type : option string;
  metadata : gmap string pyval
}.

(** [class RAGQueryResult(BaseModel)]: [content: Optional[InterleavedContent] = None] *)
Record RAGQueryResult : Type := { content : option InterleavedContent }.

(** [RAGQueryResult()] with the keyword omitted ([None] here) or given. *)
Definition RAGQueryResult_init (content_kw : option (option InterleavedContent))
  : RAGQueryResult :=
  {| content := default None content_kw |}.

(** [class DefaultRAGQueryGeneratorConfig(BaseModel)]; its [type] field is
    the literal ["default"]. *)
Record DefaultRAGQueryGeneratorConfig : Type := { separator : string }.

(** [class LLMRAGQueryGeneratorConfig(BaseModel)]; its [type] field is the
    literal ["llm"]. *)
Record LLMRAGQueryGeneratorConfig : Type := { model : string; template : string }.

(** [RAGQueryGeneratorConfig]: the union of the two classes above,
    discriminated by [type]. *)
Inductive RAGQueryGeneratorConfig : Type :=
| DefaultConfig (c : DefaultRAGQueryGeneratorConfig)
| LLMConfig (c : LLMRAGQueryGeneratorConfig).

(** The [type] field of a member of the union. *)
Definition type (c : RAGQueryGeneratorConfig) : string :=
  match c with
  | DefaultConfig _ => "default"
  | LLMConfig _ => "llm"
  end.

(** A field annotated [str] with a default. *)
Definition str_field_or (d : gmap string pyval) (key : string) (dflt : string)
  : result string :=
  match d !! key with
  | None => Ok dflt
  | Some (PyStr s) => Ok s
  | Some _ => Raise (ValidationError key "string_type")
  end.

(** A required field annotated [str]. *)
Definition str_field (d : gmap string pyval) (key : string) : result string :=
  match d !! key with
  | None => Raise (ValidationError key "missing")
  | Some (PyStr s) => Ok s
  | Some _ => Raise (ValidationError key "string_type")
  end.

(** [DefaultRAGQueryGeneratorConfig] built from the keyword dictionary [d] *)
Definition DefaultRAGQueryGeneratorConfig_validate (d : gmap string pyval)
  : result DefaultRAGQueryGeneratorConfig :=
  match str_field_or d "separator" " " with
  | Ok s => Ok {| separator := s |}
  | Raise e => Raise e
  end.

(** [LLMRAGQueryGeneratorConfig] built from the keyword dictionary [d] *)
Definition LLMRAGQueryGeneratorConfig_validate (d : gmap string pyval)
  : result LLMRAGQueryGeneratorConfig :=
  match str_field d "model" with
  | Ok m =>
      match str_field d "template" with
      | Ok t => Ok {| model := m; template := t |}
      | Raise e => Raise e
      end
  | Raise e => Raise e
  end.

(** Validation of a raw value against the discriminated union
    [Field(discriminator="type")]: the tag selects the class; a missing tag
    and a tag that names no member of the union are errors. *)
Definition RAGQueryGeneratorConfig_validate (v : pyval)
  : result RAGQueryGeneratorConfig :=
  match v with
  | PyDict d =>
      match d !! "type" with
      | None => Raise (ValidationError "query_generator_config" "union_tag_not_found")
      | Some (PyStr tag) =>
          if bool_decide (tag = "default") then
            match DefaultRAGQueryGeneratorConfig_validate d with
            | Ok c => Ok (DefaultConfig c)
            | Raise e => Raise e
            end
          else if bool_decide (tag = "llm") then
            match LLMRAGQueryGeneratorConfig_validate d with
            | Ok c => Ok (LLMConfig c)
            | Raise e => Raise e
            end
          else Raise (ValidationError "query_generator_config" "union_tag_invalid")
      | Some _ => Raise (ValidationError "query_generator_config" "union_tag_invalid")
      end
  | _ => Raise (ValidationError "query_generator_config" "model_attributes_type")
  end.

(** What a caller may pass for [query_generator_config]: an instance of one
    of the two classes, or a raw value still to be validated. *)
Inductive generator_input : Type :=
| Instance (c : RAGQueryGeneratorConfig)
| Raw (v : pyval).

(** [class RAGQueryConfig(BaseModel)] *)
Record RAGQueryConfig : Type := {
  query_generator_config : RAGQueryGeneratorConfig;
  max_tokens_in_context : Z;
  max_chunks : Z
}.

(** [RAGQueryConfig(...)]: every keyword may be omitted ([None] here), in
    which case the declared default is taken. The two [int] fields carry no
    constraint and no validator. *)
Definition RAGQueryConfig_init
    (query_generator_config_kw : option generator_input)
    (max_tokens_in_context_kw max_chunks_kw : option Z) : result RAGQueryConfig :=
  let generator :=
    match query_generator_config_kw with
    | None => Ok (DefaultConfig {| separator := " " |})
    | Some (Instance c) => Ok c
    | Some (Raw v) => RAGQueryGeneratorConfig_validate v
    end in
  match generator with
  | Ok g =>
      Ok {| query_generator_config := g;
            max_tokens_in_context := default 4096 max_tokens_in_context_kw;
            max_chunks := default 5 max_chunks_kw |}
  | Raise e => Raise e
  end.

(** [class RAGToolRuntime(Protocol)]: the two methods are declared with
    bodies [...]; an implementation supplies them. *)
Class RAGToolRuntime (R : Type) : Type := {
  insert : R -> list RAGDocument -> string -> Z -> result R;
  query : R -> InterleavedContent -> list string -> option RAGQueryConfig
          -> result RAGQueryResult
}.

(** *** The retrieval assembler behind [query] *)

(** Modelled from the spec: the implementation of [RAGToolRuntime.query] (the
    Retrieval Assembler of the spec's section 4.4) is not among the embedded
    sources, which only declare the protocol. A chunk has a content and an
    estimated token length; the input list is ordered by relevance. *)
Record Chunk : Type := { chunk_text : string; token_length : Z }.

(** Modelled from the spec: "iterate chunks in relevance order; greedily
    accept a chunk if accepting it keeps the running token total <=
    max_tokens_in_context AND the accepted count < max_chunks; otherwise skip
    it (do not abort the scan)". *)
Fixpoint accept_chunks (cfg : RAGQueryConfig) (count total : Z) (chunks : list Chunk)
  : list Chunk :=
  match chunks with
  | [] => []
  | c :: rest =>
      if (total + token_length c <=? max_tokens_in_context cfg)
         && (count <? max_chunks cfg)
      then c :: accept_chunks cfg (count + 1) (total + token_length c) rest
      else accept_chunks cfg count total rest
  end.

Fixpoint join (sep : string) (parts : list string) : string :=
  match parts with
  | [] => EmptyString
  | [p] => p
  | p :: rest => p +:+ sep +:+ join sep rest
  end.

(** Modelled from the spec: "Concatenate accepted chunks' content in their
    original relevance order using the query-generator's configured separator
    when the generator variant is default. If zero chunks are accepted, the
    result's content is empty/absent". The spec names no separator for the
    [llm] variant; [llm_separator] stands for it. *)
Definition assemble (llm_separator : string) (cfg : RAGQueryConfig) (chunks : list Chunk)
  : RAGQueryResult :=
  let sep :=
    match query_generator_config cfg with
    | DefaultConfig c => separator c
    | LLMConfig _ => llm_separator
    end in
  match accept_chunks cfg 0 0 chunks with
  | [] => RAGQueryResult_init None
  | accepted => RAGQueryResult_init (Some (Some (ContentStr (join sep (map chunk_text accepted)))))
  end.

(** Modelled from the spec: a runtime whose [query] retrieves the ranked
    chunks (an external collaborator, [retrieve]) and assembles them under the
    given configuration, or under [RAGQueryConfig()] when none is given. *)
Record Assembler : Type := {
  retrieve : InterleavedContent -> list string -> list Chunk;
  separator_for_llm : string
}.

Definition assembler_query (r : Assembler) (q : InterleavedContent)
    (vector_db_ids : list string) (query_config : option RAGQueryConfig)
  : result RAGQueryResult :=
  let cfg :=
    match query_config with
    | Some c => Ok c
    | None => RAGQueryConfig_init None None None
    end in
  match cfg with
  | Ok c => Ok (assemble (separator_for_llm r) c (retrieve r q vector_db_ids))
  | Raise e => Raise e
  end.

(** Modelled from the spec: insertion is the work of an external collaborator
    ("this core only assembles retrieval results, not insertion"); it leaves
    the assembler as it is. *)
#[export] Instance Assembler_runtime : RAGToolRuntime Assembler := {
  insert r _ _ _ := Ok r;
  query := assembler_query
}.

End RagTool.

(** ** [llama_stack/providers/remote/inference/groq/groq.py] *)

Module Groq.

(** *** Effects

    The adapter reads the per-request provider data, emits warnings and calls
    the backend. A computation yields the trace of these effects, in order,
    and either a value or the exception that ended it. *)

(** [groq.Groq(api_key=...)]: the client of the Groq SDK, of which the
    adapter determines the key. *)
Record Groq : Type := { client_api_key : string }.

Inductive effect : Type :=
| Warned (message : string)
| ReadProviderData
| Created (client : Groq) (request : gmap string pyval).

Definition M (A : Type) : Type := (list effect * result A)%type.

Definition ret {A} (a : A) : M A := ([], Ok a).
Definition raise {A} (e : exn) : M A := ([], Raise e).
Definition tell (ev : effect) : M unit := ([ev], Ok tt).
Definition lift {A} (r : result A) : M A := ([], r).

Definition bind {A B} (m : M A) (k : A -> M B) : M B :=
  match m with
  | (w, Ok a) => let '(w', r) := k a in ((w ++ w')%list, r)
  | (w, Raise e) => (w, Raise e)
  end.

(** [try: m except Exception as e: handler e] *)
Definition try_except {A} (m : M A) (handler : exn -> M A) : M A :=
  match m with
  | (w, Ok a) => (w, Ok a)
  | (w, Raise e) => let '(w', r) := handler e in ((w ++ w')%list, r)
  end.

Declare Scope groq_scope.
Delimit Scope groq_scope with groq.
Notation "x <- m ;; k" := (bind m (fun x => k))
  (at level 100, m at next level, right associativity) : groq_scope.
Notation "m ;;; k" := (bind m (fun _ => k))
  (at level 100, right associativity) : groq_scope.
Local Open Scope groq_scope.

Definition trace {A} (m : M A) : list effect := fst m.
Definition outcome {A} (m : M A) : result A := snd m.

(** *** Configuration and request context *)

(** Modelled from the spec: "authentication material is supplied either via
    static configuration or via a per-request context-provided credential".
    [GroqConfig] ([config.py]), the provider data and
    [NeedsRequestProviderData.get_request_provider_data] are not among the
    embedded sources; the adapter reads [api_key] of the former, compared with
    [None], and [groq_api_key] of the latter, tested for truth. *)
Record GroqConfig : Type := { api_key : option string }.

Record GroqProviderData : Type := { groq_api_key : option string }.

(** What [get_request_provider_data()] finds for the current request: the
    validated provider data, or [None]. *)
Record RequestContext : Type := { provider_data : option GroqProviderData }.

(** [class GroqInferenceAdapter]: [self._config] *)
Record GroqInferenceAdapter : Type := { _config : GroqConfig }.

Definition get_request_provider_data (ctx : RequestContext)
  : M (option GroqProviderData) :=
  tell ReadProviderData ;;; ret (provider_data ctx).

(** Truth value of [provider_data.groq_api_key]. *)
Definition truthy_key (k : option string) : bool :=
  match k with
  | None => false
  | Some s => negb (bool_decide (s = EmptyString))
  end.

Definition missing_key_message : string :=
  "Pass Groq API Key in the header X-LlamaStack-Provider-Data as { "
  +:+ dq +:+ "groq_api_key" +:+ dq +:+ ": " +:+ dq +:+ "<your api key>" +:+ dq +:+ " }".

(** [GroqInferenceAdapter._get_client]. The error is raised when
    [provider_data is None or not provider_data.groq_api_key]: no data, no
    key in the data, or an empty key. *)
Definition _get_client (self : GroqInferenceAdapter) (ctx : RequestContext) : M Groq :=
  match api_key (_config self) with
  | Some k => ret {| client_api_key := k |}
  | None =>
      pd <- get_request_provider_data ctx ;;
      match pd with
      | None => raise (ValueError [PyStr missing_key_message] None)
      | Some d =>
          match groq_api_key d with
          | Some k =>
              if truthy_key (Some k) then ret {| client_api_key := k |}
              else raise (ValueError [PyStr missing_key_message] None)
          | None => raise (ValueError [PyStr missing_key_message] None)
          end
      end
  end.

(** *** Requests *)

(** The keyword arguments with which [chat_completion] builds its
    [ChatCompletionRequest]. The messages, parameters, formats and tool
    definitions are pydantic models of other modules; they are carried as the
    values they serialise to. *)
Record ChatCompletionRequest : Type := {
  model : string;
  messages : list pyval;
  sampling_params : option pyval;
  response_format : option pyval;
  tools : option (list pyval);
  stream : option bool;
  logprobs : option pyval;
  tool_config : option pyval
}.

(** Modelled from the spec: [ToolChoice] and [ToolPromptFormat] are declared
    in modules that are not among the embedded sources; the spec lists the
    policies auto/required/none and the formats json/python_list. *)
Inductive ToolChoice : Type := auto | required | none.
Inductive ToolPromptFormat : Type := json | python_list.

Definition preview_warning : string :=
  "Groq only contains a preview version for llama-3.2-3b-instruct. "
  +:+ "Preview models aren't recommended for production use. "
  +:+ "They can be discontinued on short notice."
  +:+ "More details: https://console.groq.com/docs/models".

(** What [chat_completion] returns: a response, or the lazy chunk stream. *)
Inductive ChatResult (Response Stream : Type) : Type :=
| Completed (r : Response)
| Streaming (s : Stream).
Arguments Completed {Response Stream} r.
Arguments Streaming {Response Stream} s.

Section Adapter.

(** The backend's response object, the unified response and the unified
    chunk iterator. *)
Context {GroqResponse ChatCompletionResponse ChunkIterator : Type}.

(** [ModelRegistryHelper.get_provider_model_id]: the registry's lookup. *)
Variable get_provider_model_id : string -> result string.
(** The three converters of [groq_utils]. Calling the stream converter only
    creates the generator; nothing runs until it is consumed. *)
Variable convert_chat_completion_request
  : ChatCompletionRequest -> result (gmap string pyval).
Variable convert_chat_completion_response
  : GroqResponse -> result ChatCompletionResponse.
Variable convert_chat_completion_response_stream : GroqResponse -> ChunkIterator.
(** [client.chat.completions.create]: the backend call. *)
Variable create : Groq -> gmap string pyval -> result GroqResponse.

(** [GroqInferenceAdapter.completion]: the body is a single [raise]. *)
Definition completion (self : GroqInferenceAdapter) (model_id : string)
    (content : pyval) (sampling_params response_format : option pyval)
    (stream : option bool) (logprobs : option pyval) : M pyval :=
  raise NotImplementedError.

(** [GroqInferenceAdapter.embeddings] *)
Definition embeddings (self : GroqInferenceAdapter) (model_id : string)
    (contents : list pyval) (text_truncation : option pyval)
    (output_dimension : option Z) (task_type : option pyval) : M pyval :=
  raise NotImplementedError.

(** The [except groq.BadRequestError as e] clause. *)
Definition on_error (e : exn) : M GroqResponse :=
  match e with
  | BadRequestError body =>
      err <- lift (py_get body "error" (PyDict ∅)) ;;
      code <- lift (py_get err "code" PyNone) ;;
      if py_eq_str code "tool_use_failed" then
        payload <- lift (py_get body "error" (PyDict ∅)) ;;
        raise (ValueError [PyStr "Groq failed to call a tool"; payload] (Some e))
      else raise e
  | _ => raise e
  end.

(** The [try] block: obtain the client and call the backend. *)
Definition call_backend (self : GroqInferenceAdapter) (ctx : RequestContext)
    (request : gmap string pyval) : M GroqResponse :=
  try_except
    (client <- _get_client self ctx ;;
     tell (Created client request) ;;;
     lift (create client request))
    on_error.

(** The statements of [chat_completion] that follow the warning. *)
Definition send (self : GroqInferenceAdapter) (ctx : RequestContext)
    (request : ChatCompletionRequest)
  : M (ChatResult ChatCompletionResponse ChunkIterator) :=
  request' <- lift (convert_chat_completion_request request) ;;
  response <- call_backend self ctx request' ;;
  match stream request with
  | Some true => ret (Streaming (convert_chat_completion_response_stream response))
  | _ =>
      r <- lift (convert_chat_completion_response response) ;;
      ret (Completed r)
  end.

(** [GroqInferenceAdapter.chat_completion] *)
Definition chat_completion (self : GroqInferenceAdapter) (ctx : RequestContext)
    (model_id : string) (messages : list pyval)
    (sampling_params response_format : option pyval)
    (tools : option (list pyval))
    (tool_choice : option ToolChoice) (tool_prompt_format : option ToolPromptFormat)
    (stream : option bool) (logprobs tool_config : option pyval)
  : M (ChatResult ChatCompletionResponse ChunkIterator) :=
  model_id <- lift (get_provider_model_id model_id) ;;
  (if bool_decide (model_id = "llama-3.2-3b-preview")
   then tell (Warned preview_warning) else ret tt) ;;;
  send self ctx
    {| model := model_id; messages := messages; sampling_params := sampling_params;
       response_format := response_format; tools := tools; stream := stream;
       logprobs := logprobs; tool_config := tool_config |}.

End Adapter.

End Groq.

(** ** The streaming tool-call parser behind
       [convert_chat_completion_response_stream] *)

Module GroqUtils.

Import Groq.
Local Open Scope list_scope.

Definition text_t : Type := list ascii.

(** Modelled from the spec: [ToolCall] is "tool name + argument mapping
    (string keys, typed values), call_id"; it is declared outside the
    embedded sources. *)
Record ToolCall : Type := {
  tool_name : string;
  arguments : gmap string pyval;
  call_id : string
}.

(** Modelled from the spec: the stream chunk is "a discriminated event":
    text with its delta, a tool call that parsed, a tool call that failed with
    its raw text, and completion with the stop reason. A succeeded tool call
    is listed with the span of backend text it was parsed from, the "raw span"
    of the spec's accounting. *)
Inductive StreamChunk : Type :=
| text (delta : text_t)
| tool_call_succeeded (tool_call : ToolCall) (raw : text_t)
| tool_call_failed (raw_text : text_t)
| complete (stop_reason : string).

(** The backend text a chunk accounts for. *)
Definition span (c : StreamChunk) : text_t :=
  match c with
  | text delta => delta
  | tool_call_succeeded _ raw => raw
  | tool_call_failed raw_text => raw_text
  | complete _ => []
  end.

Definition spans (cs : list StreamChunk) : text_t := concat (map span cs).

(** Modelled from the spec: the parse mode is
    "scanning | inside-candidate | emit-pending". *)
Inductive parse_mode : Type := scanning | inside_candidate | emit_pending.

(** Modelled from the spec: the parser state is "an accumulation buffer of
    not-yet-classified raw text, a parse mode, and the configured tool-prompt
    format". The format is fixed for a stream and passed alongside. *)
Record parser : Type := { buffer : text_t; mode : parse_mode }.

Definition idle : parser := {| buffer := []; mode := scanning |}.

(** Modelled from the spec: a unit is complete on "balanced brackets/braces
    per the configured format": brackets for [python_list], braces for
    [json]. *)
Definition open_bracket (f : ToolPromptFormat) : ascii :=
  match f with
  | json => "{"%char
  | python_list => "["%char
  end.

Definition close_bracket (f : ToolPromptFormat) : ascii :=
  match f with
  | json => "}"%char
  | python_list => "]"%char
  end.

Fixpoint nesting (f : ToolPromptFormat) (buf : text_t) (depth : nat) : nat :=
  match buf with
  | [] => depth
  | c :: rest =>
      if bool_decide (c = open_bracket f) then nesting f rest (S depth)
      else if bool_decide (c = close_bracket f) then nesting f rest (Nat.pred depth)
      else nesting f rest depth
  end.

Definition balanced (f : ToolPromptFormat) (buf : text_t) : bool :=
  Nat.eqb (nesting f buf 0) 0.

(** Modelled from the spec: "If no tools were offered in the originating
    request, the parser short-circuits". *)
Definition tools_offered (tools : option (list pyval)) : bool :=
  match tools with
  | Some (_ :: _) => true
  | _ => false
  end.

(** [strip_suffix m buf] is what precedes [m] when [buf] ends with [m]. *)
Fixpoint strip_suffix (m buf : text_t) : option text_t :=
  if bool_decide (buf = m) then Some []
  else
    match buf with
    | [] => None
    | c :: rest => option_map (cons c) (strip_suffix m rest)
    end.

(** [proper_prefix p m]: [m] begins with [p] and is longer. *)
Fixpoint proper_prefix (p m : text_t) : bool :=
  match p, m with
  | [], _ :: _ => true
  | c :: p', d :: m' => bool_decide (c = d) && proper_prefix p' m'
  | _, [] => false
  end.

(** Modelled from the spec: scanned text is "never held back beyond what is
    needed to detect a marker that could span a chunk boundary".
    [hold_back m buf] cuts [buf] into the text to emit and the longest end of
    [buf] that may still grow into the marker [m]. *)
Fixpoint hold_back (m buf : text_t) : text_t * text_t :=
  match buf with
  | [] => ([], [])
  | c :: rest =>
      if proper_prefix buf m then ([], buf)
      else let '(out, keep) := hold_back m rest in (c :: out, keep)
  end.

(** The marker that is the format's opening bracket. *)
Definition bracket_marker (f : ToolPromptFormat) : text_t := [open_bracket f].

Section Parser.

(** The structural parser of a complete candidate into a [ToolCall], the
    hard bound on the size of a candidate, and the candidate-start token of
    each format; the spec fixes none of them. *)
Variable parse_tool_call : ToolPromptFormat -> text_t -> option ToolCall.
Variable max_candidate : nat.
Variable start_marker : ToolPromptFormat -> text_t.

(** Text is only emitted when there is some. *)
Definition flush_text (buf : text_t) : list StreamChunk :=
  match buf with
  | [] => []
  | _ => [text buf]
  end.

(** Modelled from the spec: "On success, attempt structural parse into
    ToolCall; on parse success, emit {tool_call, succeeded}. On parse failure
    emit {tool_call, failed, raw_text=<accumulated buffer>}"; a candidate cut
    by the size bound is a failure as well. *)
Definition pending_chunk (f : ToolPromptFormat) (buf : text_t) : StreamChunk :=
  if balanced f buf then
    match parse_tool_call f buf with
    | Some tc => tool_call_succeeded tc buf
    | None => tool_call_failed buf
    end
  else tool_call_failed buf.

(** Modelled from the spec: in [inside_candidate] the "buffer accumulates
    until a complete, parseable unit is detected or until a hard size bound is
    exceeded"; the event is then pending. *)
Definition candidate (f : ToolPromptFormat) (buf : text_t) : parser :=
  if balanced f buf || Nat.ltb max_candidate (length buf)
  then {| buffer := buf; mode := emit_pending |}
  else {| buffer := buf; mode := inside_candidate |}.

(** Modelled from the spec: in [scanning], "text before the marker is emitted
    immediately as text events. On marker detection, transition to
    inside-candidate, buffering from the marker onward". The marker is
    detected when the text scanned so far ends with it. *)
Definition scan (f : ToolPromptFormat) (buf : text_t) (c : ascii)
  : parser * list StreamChunk :=
  match strip_suffix (start_marker f) (buf ++ [c]) with
  | Some before => (candidate f (start_marker f), flush_text before)
  | None => ({| buffer := buf ++ [c]; mode := scanning |}, [])
  end.

(** One character of the backend's text. A pending event is emitted first,
    and the parser is back to scanning. *)
Definition step (f : ToolPromptFormat) (p : parser) (c : ascii)
  : parser * list StreamChunk :=
  match mode p with
  | scanning => scan f (buffer p) c
  | inside_candidate => (candidate f (buffer p ++ [c]), [])
  | emit_pending =>
      let '(p', out) := scan f [] c in
      (p', pending_chunk f (buffer p) :: out)
  end.

Fixpoint feed_chars (f : ToolPromptFormat) (p : parser) (cs : text_t)
  : parser * list StreamChunk :=
  match cs with
  | [] => (p, [])
  | c :: rest =>
      let '(p1, out1) := step f p c in
      let '(p2, out2) := feed_chars f p1 rest in
      (p2, out1 ++ out2)
  end.

(** At the end of a delta scanned text is emitted, up to the beginning of a
    marker that the next delta may complete, and so is a pending event; an
    open candidate stays buffered. *)
Definition end_of_delta (f : ToolPromptFormat) (p : parser)
  : parser * list StreamChunk :=
  match mode p with
  | scanning =>
      let '(out, keep) := hold_back (start_marker f) (buffer p) in
      ({| buffer := keep; mode := scanning |}, flush_text out)
  | inside_candidate => (p, [])
  | emit_pending => (idle, [pending_chunk f (buffer p)])
  end.

(** One delta of the backend stream. *)
Definition feed (f : ToolPromptFormat) (p : parser) (delta : text_t)
  : parser * list StreamChunk :=
  let '(p1, out1) := feed_chars f p delta in
  let '(p2, out2) := end_of_delta f p1 in
  (p2, out1 ++ out2).

(** The chunks emitted while the deltas arrive, and the state reached. *)
Fixpoint feed_all (f : ToolPromptFormat) (p : parser) (deltas : list text_t)
  : parser * list StreamChunk :=
  match deltas with
  | [] => (p, [])
  | d :: rest =>
      let '(p1, out1) := feed f p d in
      let '(p2, out2) := feed_all f p1 rest in
      (p2, out1 ++ out2)
  end.

(** Modelled from the spec: "End-of-stream while inside-candidate: flush the
    unterminated buffer as a failed tool-call event". *)
Definition end_of_stream (f : ToolPromptFormat) (p : parser) : list StreamChunk :=
  match mode p with
  | scanning => flush_text (buffer p)
  | inside_candidate => [tool_call_failed (buffer p)]
  | emit_pending => [pending_chunk f (buffer p)]
  end.

(** The chunks emitted for the first deltas of a stream, before the next
    delta or the end of the stream is known. *)
Definition emitted (tools : option (list pyval)) (f : ToolPromptFormat)
    (deltas : list text_t) : list StreamChunk :=
  if tools_offered tools then snd (feed_all f idle deltas)
  else map text deltas.

(** Modelled from the spec: the Streaming Tool-Call Parser of section 4.2,
    applied to the text deltas of a backend stream that ends with
    [stop_reason]. [groq_utils.py], which defines
    [convert_chat_completion_response_stream], is not among the embedded
    sources. *)
Definition convert_chat_completion_response_stream
    (tools : option (list pyval)) (f : ToolPromptFormat)
    (deltas : list text_t) (stop_reason : string) : list StreamChunk :=
  (if tools_offered tools then
     let '(p, out) := feed_all f idle deltas in out ++ end_of_stream f p
   else map text deltas)
  ++ [complete stop_reason].

End Parser.

End GroqUtils.

(** ** More of [rag_tool.py]: lookup by value and serialisation *)

Module RagToolExt.

Import RagTool.

(** [RAGQueryGenerator(v)]: the member of the enumeration whose value is
    [v]; a value of no member is a [ValueError]. *)
Definition RAGQueryGenerator_call (v : string) : result RAGQueryGenerator.t :=
  match List.find (fun g => bool_decide (RAGQueryGenerator.value g = v))
                  RAGQueryGenerator.members with
  | Some g => Ok g
  | None =>
      Raise (ValueError [PyStr ("'" +:+ v +:+ "' is not a valid RAGQueryGenerator")]
               None)
  end.

(** [model_dump()] of a member of the union: its declared fields by name,
    the literal [type] among them. *)
Definition model_dump (c : RAGQueryGeneratorConfig) : gmap string pyval :=
  match c with
  | DefaultConfig d =>
      {[ "type" := PyStr "default"; "separator" := PyStr (separator d) ]}
  | LLMConfig l =>
      {[ "type" := PyStr "llm"; "model" := PyStr (model l);
         "template" := PyStr (template l) ]}
  end.

(** The names of the fields that the two classes declare. *)
Definition declared_fields : list string := ["type"; "separator"; "model"; "template"].

End RagToolExt.

(** ** [tests/client-sdk/inference/test_text_inference.py]: the helpers *)

Module Model.
(** What the helper reads of an entry of [client.models.list()]. *)
Record t : Type := { identifier : string; provider_id : string }.
End Model.

Module Provider.
(** What the helper reads of an entry of [client.providers.list()]. *)
Record t : Type := { provider_id : string; provider_type : string }.
End Provider.

Module TestTextInference.

Import Groq GroqUtils.

(** How a call of the helper ends: it returns, it raises pytest's [Skipped]
    with a reason, or a dictionary lookup raises [KeyError]. *)
Inductive helper_outcome : Type :=
| Returned
| Skipped (reason : string)
| KeyError (key : string).

(** [{key(x): x for x in l}]: a later entry replaces an earlier one with the
    same key. *)
Definition by_key {A} (key : A -> string) (l : list A) : gmap string A :=
  fold_left (fun d x => <[key x := x]> d) l ∅.

(** The provider types for which the helper skips. *)
Definition without_completion : list string :=
  ["remote::openai"; "remote::anthropic"; "remote::gemini"].

(** [skip_if_model_doesnt_support_completion]; the first component is what
    it prints. *)
Definition skip_if_model_doesnt_support_completion
    (models : list Model.t) (providers : list Provider.t) (model_id : string)
  : list string * helper_outcome :=
  match by_key Model.identifier models !! model_id with
  | None => ([], KeyError model_id)
  | Some m =>
      match by_key Provider.provider_id providers !! Model.provider_id m with
      | None => ([], KeyError (Model.provider_id m))
      | Some provider =>
          let line :=
            "Provider: " +:+ Provider.provider_type provider
            +:+ " for model " +:+ model_id in
          if bool_decide (Provider.provider_type provider ∈ without_completion)
          then ([line],
                Skipped ("Model " +:+ model_id +:+ " hosted by "
                         +:+ Provider.provider_type provider
                         +:+ " doesn't support completion"))
          else ([line], Returned)
      end
  end.

Section Extract.

(** [str(call.arguments)], the text of the argument dictionary. *)
Variable str_arguments : gmap string pyval -> string.

(** What one chunk adds to the invocation content: a chunk whose delta is a
    tool call with [parse_status] succeeded adds [[name, arguments]], every
    other chunk nothing. *)
Definition invocation (chunk : StreamChunk) : string :=
  match chunk with
  | tool_call_succeeded call _ =>
      "[" +:+ tool_name call +:+ ", " +:+ str_arguments (arguments call) +:+ "]"
  | _ => EmptyString
  end.

(** [extract_tool_invocation_content]: the loop over the chunks of the
    response, appending to the content. *)
Definition extract_tool_invocation_content (response : list StreamChunk) : string :=
  fold_left (fun content chunk => content +:+ invocation chunk) response EmptyString.

End Extract.

End TestTextInference.

(** * Properties *)

(** ** The RAG tool's data model *)

Module RagToolFacts.

Import RagTool.

Lemma str_field_or_inv (d : gmap string pyval) key dflt s :
  str_field_or d key dflt = Ok s ->
  d !! key = Some (PyStr s) \/ (d !! key = None /\ s = dflt).
Proof.
  unfold str_field_or.
  destruct (d !! key) as [[]|]; intros H; inversion H; subst; auto.
Qed.

Lemma str_field_inv (d : gmap string pyval) key s :
  str_field d key = Ok s -> d !! key = Some (PyStr s).
Proof.
  unfold str_field.
  destruct (d !! key) as [[]|]; intros H; inversion H; subst; auto.
Qed.

(** A value is accepted only as a dictionary whose tag is the [type] of the
    resulting member, with the member's fields read from the dictionary. *)
Lemma validate_inv (v : pyval) (c : RAGQueryGeneratorConfig) :
  RAGQueryGeneratorConfig_validate v = Ok c ->
  exists d : gmap string pyval,
    v = PyDict d /\ d !! "type" = Some (PyStr (type c)) /\
    match c with
    | DefaultConfig dc =>
        d !! "separator" = Some (PyStr (separator dc))
        \/ (d !! "separator" = None /\ separator dc = " ")
    | LLMConfig lc =>
        d !! "model" = Some (PyStr (model lc))
        /\ d !! "template" = Some (PyStr (template lc))
    end.
Proof.
  destruct v as [| | | | |d]; simpl; try discriminate.
  intros H. exists d. split; [reflexivity|].
  destruct (d !! "type") as [[| | |tag| |]|] eqn:Htag; try discriminate.
  case_bool_decide as Hd.
  - subst tag. unfold DefaultRAGQueryGeneratorConfig_validate in H.
    destruct (str_field_or d "separator" " ") as [s|] eqn:Hs; [|discriminate].
    inversion H; subst c; simpl. split; [reflexivity|].
    apply str_field_or_inv in Hs. exact Hs.
  - case_bool_decide as Hl; [|discriminate].
    subst tag. unfold LLMRAGQueryGeneratorConfig_validate in H.
    destruct (str_field d "model") as [m|] eqn:Hm; [|discriminate].
    destruct (str_field d "template") as [t|] eqn:Ht; [|discriminate].
    inversion H; subst c; simpl. split; [reflexivity|].
    split; [exact (str_field_inv _ _ _ Hm) | exact (str_field_inv _ _ _ Ht)].
Qed.

Lemma validate_default (d : gmap string pyval) :
  d !! "type" = Some (PyStr "default") ->
  RAGQueryGeneratorConfig_validate (PyDict d) =
    match d !! "separator" with
    | None => Ok (DefaultConfig {| separator := " " |})
    | Some (PyStr s) => Ok (DefaultConfig {| separator := s |})
    | Some _ => Raise (ValidationError "separator" "string_type")
    end.
Proof.
  intros Htag. simpl. rewrite Htag.
  rewrite bool_decide_eq_true_2 by reflexivity.
  unfold DefaultRAGQueryGeneratorConfig_validate, str_field_or.
  destruct (d !! "separator") as [[]|]; reflexivity.
Qed.

Lemma validate_llm (d : gmap string pyval) (m t : string) :
  d !! "type" = Some (PyStr "llm") ->
  d !! "model" = Some (PyStr m) ->
  d !! "template" = Some (PyStr t) ->
  RAGQueryGeneratorConfig_validate (PyDict d)
  = Ok (LLMConfig {| model := m; template := t |}).
Proof.
  intros Htag Hm Ht. simpl. rewrite Htag.
  rewrite bool_decide_eq_false_2 by discriminate.
  rewrite bool_decide_eq_true_2 by reflexivity.
  unfold LLMRAGQueryGeneratorConfig_validate, str_field.
  rewrite Hm, Ht. reflexivity.
Qed.

Lemma validate_other_tag (d : gmap string pyval) (tag : string) :
  d !! "type" = Some (PyStr tag) ->
  tag <> "default" -> tag <> "llm" ->
  RAGQueryGeneratorConfig_validate (PyDict d)
  = Raise (ValidationError "query_generator_config" "union_tag_invalid").
Proof.
  intros Htag Hd Hl. simpl. rewrite Htag.
  rewrite bool_decide_eq_false_2 by exact Hd.
  rewrite bool_decide_eq_false_2 by exact Hl.
  reflexivity.
Qed.

(** C5, as stated, fails: a configuration whose [max_chunks] is zero and
    whose [max_tokens_in_context] is negative is constructed without error,
    and the two values are stored as given. *)
Lemma RAGQueryConfig_accepts_nonpositive :
  RAGQueryConfig_init None (Some (-1)) (Some 0)
  = Ok {| query_generator_config := DefaultConfig {| separator := " " |};
          max_tokens_in_context := -1;
          max_chunks := 0 |}.
Proof. reflexivity. Qed.

(** C5, amended: construction puts no constraint on [max_chunks] and
    [max_tokens_in_context]. Whatever integers are given are stored
    unchanged, an omitted one takes its default (5 and 4096, both positive),
    and construction fails only when the generator configuration does, with
    that error. *)
Theorem RAGQueryConfig_init_unconstrained
    (q : option generator_input) (mt mc : option Z) :
  RAGQueryConfig_init q mt mc =
    match RAGQueryConfig_init q None None with
    | Ok c =>
        Ok {| query_generator_config := query_generator_config c;
              max_tokens_in_context := default 4096 mt;
              max_chunks := default 5 mc |}
    | Raise e => Raise e
    end
  /\ (forall g, q = None \/ q = Some (Instance g) ->
        is_ok (RAGQueryConfig_init q mt mc) = true)
  /\ RAGQueryConfig_init None None None
     = Ok {| query_generator_config := DefaultConfig {| separator := " " |};
             max_tokens_in_context := 4096;
             max_chunks := 5 |}
  /\ 0 < 4096 /\ 0 < 5.
Proof.
  split; [|split; [|split; [reflexivity | lia]]].
  - unfold RAGQueryConfig_init.
    destruct q as [[g|v]|]; simpl; try reflexivity.
    destruct (RAGQueryGeneratorConfig_validate v); reflexivity.
  - intros g [-> | ->]; reflexivity.
Qed.

(** C6, as stated, fails: [custom] is a member of the enumeration
    [RAGQueryGenerator], yet a generator configuration tagged ["custom"] is
    rejected, the union having no such alternative. *)
Lemma custom_tag_rejected :
  RAGQueryGenerator.value RAGQueryGenerator.custom = "custom"
  /\ RAGQueryGeneratorConfig_validate (PyDict {[ "type" := PyStr "custom" ]})
     = Raise (ValidationError "query_generator_config" "union_tag_invalid").
Proof. split; reflexivity. Qed.

(** C6, amended: [query_generator_config] is a closed tagged variant with
    exactly the alternatives default and llm. Every accepted value is a
    dictionary tagged ["default"] or ["llm"]; default carries a separator
    string (a blank when omitted), llm carries a model id and a template; a
    value with any other tag, ["custom"] included, is rejected at
    construction. *)
Theorem generator_config_union_closed :
  (forall v c, RAGQueryGeneratorConfig_validate v = Ok c ->
     (type c = "default" \/ type c = "llm") /\
     exists d : gmap string pyval,
       v = PyDict d /\ d !! "type" = Some (PyStr (type c)) /\
       match c with
       | DefaultConfig dc =>
           d !! "separator" = Some (PyStr (separator dc))
           \/ (d !! "separator" = None /\ separator dc = " ")
       | LLMConfig lc =>
           d !! "model" = Some (PyStr (model lc))
           /\ d !! "template" = Some (PyStr (template lc))
       end)
  /\ (forall (d : gmap string pyval) s,
        d !! "type" = Some (PyStr "default") ->
        d !! "separator" = Some (PyStr s) ->
        RAGQueryGeneratorConfig_validate (PyDict d)
        = Ok (DefaultConfig {| separator := s |}))
  /\ (forall (d : gmap string pyval) m t,
        d !! "type" = Some (PyStr "llm") ->
        d !! "model" = Some (PyStr m) ->
        d !! "template" = Some (PyStr t) ->
        RAGQueryGeneratorConfig_validate (PyDict d)
        = Ok (LLMConfig {| model := m; template := t |}))
  /\ (forall (d : gmap string pyval) tag,
        d !! "type" = Some (PyStr tag) ->
        tag <> "default" -> tag <> "llm" ->
        RAGQueryGeneratorConfig_validate (PyDict d)
        = Raise (ValidationError "query_generator_config" "union_tag_invalid"))
  /\ (forall (d : gmap string pyval) q mt mc,
        d !! "type" = Some (PyStr "custom") ->
        q = Some (Raw (PyDict d)) ->
        is_ok (RAGQueryConfig_init q mt mc) = false).
Proof.
  split; [|split; [|split; [|split]]].
  - intros v c H. split.
    + destruct c; simpl; auto.
    + apply validate_inv. exact H.
  - intros d s Htag Hs. rewrite (validate_default d Htag), Hs. reflexivity.
  - intros d m t. apply validate_llm.
  - intros d tag. apply validate_other_tag.
  - intros d q mt mc Htag ->. unfold RAGQueryConfig_init.
    rewrite (validate_other_tag d "custom" Htag) by discriminate.
    reflexivity.
Qed.

(** Example: the two alternatives, built from dictionaries. *)
Example generator_config_examples :
  RAGQueryGeneratorConfig_validate
    (PyDict {[ "type" := PyStr "default"; "separator" := PyStr ", " ]})
  = Ok (DefaultConfig {| separator := ", " |})
  /\ RAGQueryGeneratorConfig_validate
       (PyDict {[ "type" := PyStr "llm"; "model" := PyStr "m";
                  "template" := PyStr "t" ]})
     = Ok (LLMConfig {| model := "m"; template := "t" |})
  /\ RAGQueryGeneratorConfig_validate (PyDict {[ "type" := PyStr "llm" ]})
     = Raise (ValidationError "model" "missing")
  /\ RAGQueryGeneratorConfig_validate (PyDict ∅)
     = Raise (ValidationError "query_generator_config" "union_tag_not_found").
Proof. repeat split; vm_compute; reflexivity. Qed.

(** *** The retrieval assembler *)

Lemma accept_chunks_none_content llm_sep cfg chunks :
  accept_chunks cfg 0 0 chunks = [] ->
  assemble llm_sep cfg chunks = {| content := None |}.
Proof. intros H. unfold assemble. rewrite H. reflexivity. Qed.

(** C8: the content of a [RAGQueryResult] is optional and absent by default,
    and a query that accepts no chunk returns such a result: it does not
    raise. *)
Theorem query_zero_accepted (r : Assembler) (q : InterleavedContent)
    (vector_db_ids : list string) (cfg : RAGQueryConfig) :
  accept_chunks cfg 0 0 (retrieve r q vector_db_ids) = [] ->
  content (RAGQueryResult_init None) = None
  /\ query r q vector_db_ids (Some cfg) = Ok (RAGQueryResult_init None)
  /\ (forall cfg', is_ok (query r q vector_db_ids cfg') = true).
Proof.
  intros H. split; [reflexivity|split].
  - simpl. unfold assembler_query.
    rewrite (accept_chunks_none_content _ _ _ H). reflexivity.
  - intros [c|]; reflexivity.
Qed.

Definition oversized_only : Assembler :=
  {| retrieve := fun _ _ => [ {| chunk_text := "long"; token_length := 5000 |} ];
     separator_for_llm := EmptyString |}.

Definition default_config : RAGQueryConfig :=
  {| query_generator_config := DefaultConfig {| separator := " " |};
     max_tokens_in_context := 4096;
     max_chunks := 5 |}.

Lemma query_zero_accepted_witness :
  content (RAGQueryResult_init None) = None
  /\ query oversized_only (ContentStr "q") ["db"] (Some default_config)
     = Ok (RAGQueryResult_init None)
  /\ (forall cfg', is_ok (query oversized_only (ContentStr "q") ["db"] cfg') = true).
Proof.
  apply (query_zero_accepted oversized_only (ContentStr "q") ["db"] default_config).
  reflexivity.
Defined.

(** The scenario of the spec: chunks of 50, 40 and 30 tokens under at most 2
    chunks and 80 tokens; the second is skipped and the third still fits. *)
Example greedy_skip_scenario :
  assemble EmptyString
    {| query_generator_config := DefaultConfig {| separator := " " |};
       max_tokens_in_context := 80; max_chunks := 2 |}
    [ {| chunk_text := "A"; token_length := 50 |};
      {| chunk_text := "B"; token_length := 40 |};
      {| chunk_text := "C"; token_length := 30 |} ]
  = {| content := Some (ContentStr "A C") |}.
Proof. reflexivity. Qed.

End RagToolFacts.

(** ** The Groq adapter *)

Module GroqFacts.

Import Groq.
Local Open Scope groq_scope.

(** The key that the request's provider data supplies, if any: the data must
    be present and its [groq_api_key] must be truthy. *)
Definition request_key (ctx : RequestContext) : option string :=
  match provider_data ctx with
  | Some d => if truthy_key (groq_api_key d) then groq_api_key d else None
  | None => None
  end.

Definition mentions (needle haystack : string) : bool :=
  match String.index 0 needle haystack with
  | Some _ => true
  | None => false
  end.

Lemma get_client_static (self : GroqInferenceAdapter) (ctx : RequestContext) k :
  api_key (_config self) = Some k ->
  _get_client self ctx = ([], Ok {| client_api_key := k |}).
Proof. intros H. unfold _get_client. rewrite H. reflexivity. Qed.

Lemma get_client_request (self : GroqInferenceAdapter) (ctx : RequestContext) k :
  api_key (_config self) = None ->
  request_key ctx = Some k ->
  _get_client self ctx = ([ReadProviderData], Ok {| client_api_key := k |}).
Proof.
  intros Hc Hk. unfold _get_client, request_key in *. rewrite Hc.
  destruct ctx as [[[[s|]]|]]; simpl in *; try discriminate.
  destruct (bool_decide (s = EmptyString)); simpl in *; [discriminate|].
  inversion Hk; subst. reflexivity.
Qed.

Lemma get_client_missing (self : GroqInferenceAdapter) (ctx : RequestContext) :
  api_key (_config self) = None ->
  request_key ctx = None ->
  _get_client self ctx
  = ([ReadProviderData], Raise (ValueError [PyStr missing_key_message] None)).
Proof.
  intros Hc Hk. unfold _get_client, request_key in *. rewrite Hc.
  destruct ctx as [[[[s|]]|]]; simpl in *; try reflexivity.
  destruct (bool_decide (s = EmptyString)); simpl in *; [reflexivity|discriminate].
Qed.

(** C3: [completion] and [embeddings] raise [NotImplementedError] on every
    input, having done nothing else: no backend call, no partial result. *)
Theorem completion_embeddings_unsupported
    (self : GroqInferenceAdapter) (model_id : string)
    (content : pyval) (sampling_params response_format : option pyval)
    (stream : option bool) (logprobs : option pyval)
    (contents : list pyval) (text_truncation : option pyval)
    (output_dimension : option Z) (task_type : option pyval) :
  completion self model_id content sampling_params response_format stream logprobs
  = ([], Raise NotImplementedError)
  /\ embeddings self model_id contents text_truncation output_dimension task_type
     = ([], Raise NotImplementedError).
Proof. split; reflexivity. Qed.

(** C4: with no key in the static configuration and none in the request's
    provider data, [_get_client] raises the error whose message tells the
    caller to pass the key in the header [X-LlamaStack-Provider-Data] as
    [groq_api_key]; with a key in either place it returns a client built from
    that key. *)
Theorem get_client_credentials (self : GroqInferenceAdapter) (ctx : RequestContext) :
  (api_key (_config self) = None -> request_key ctx = None ->
   outcome (_get_client self ctx)
   = Raise (ValueError [PyStr missing_key_message] None))
  /\ (forall k, api_key (_config self) = Some k ->
        outcome (_get_client self ctx) = Ok {| client_api_key := k |})
  /\ (forall k, api_key (_config self) = None -> request_key ctx = Some k ->
        outcome (_get_client self ctx) = Ok {| client_api_key := k |})
  /\ mentions "X-LlamaStack-Provider-Data" missing_key_message = true
  /\ mentions "groq_api_key" missing_key_message = true.
Proof.
  repeat split.
  - intros Hc Hk. rewrite (get_client_missing self ctx Hc Hk). reflexivity.
  - intros k Hc. rewrite (get_client_static self ctx k Hc). reflexivity.
  - intros k Hc Hk. rewrite (get_client_request self ctx k Hc Hk). reflexivity.
Qed.

Example get_client_examples :
  outcome (_get_client {| _config := {| api_key := None |} |}
             {| provider_data := None |})
  = Raise (ValueError [PyStr missing_key_message] None)
  /\ outcome (_get_client {| _config := {| api_key := None |} |}
                {| provider_data := Some {| groq_api_key := Some EmptyString |} |})
     = Raise (ValueError [PyStr missing_key_message] None)
  /\ outcome (_get_client {| _config := {| api_key := None |} |}
                {| provider_data := Some {| groq_api_key := Some "gsk_r" |} |})
     = Ok {| client_api_key := "gsk_r" |}
  /\ outcome (_get_client {| _config := {| api_key := Some "gsk_c" |} |}
                {| provider_data := Some {| groq_api_key := Some "gsk_r" |} |})
     = Ok {| client_api_key := "gsk_c" |}.
Proof. repeat split. Qed.

(** C9: when the static configuration has a key, the client is built from
    it and the request's provider data is not read: the trace of
    [_get_client] is empty, and two request contexts give the same result. *)
Theorem get_client_ignores_request_credential
    (self : GroqInferenceAdapter) (k : string) (ctx1 ctx2 : RequestContext) :
  api_key (_config self) = Some k ->
  _get_client self ctx1 = _get_client self ctx2
  /\ trace (_get_client self ctx1) = []
  /\ outcome (_get_client self ctx1) = Ok {| client_api_key := k |}.
Proof.
  intros H.
  rewrite (get_client_static self ctx1 k H), (get_client_static self ctx2 k H).
  repeat split.
Qed.

Lemma get_client_ignores_request_credential_witness :
  _get_client {| _config := {| api_key := Some "gsk_c" |} |}
    {| provider_data := None |}
  = _get_client {| _config := {| api_key := Some "gsk_c" |} |}
      {| provider_data := Some {| groq_api_key := Some "gsk_r" |} |}
  /\ trace (_get_client {| _config := {| api_key := Some "gsk_c" |} |}
              {| provider_data := None |}) = []
  /\ outcome (_get_client {| _config := {| api_key := Some "gsk_c" |} |}
                {| provider_data := None |})
     = Ok {| client_api_key := "gsk_c" |}.
Proof.
  apply (get_client_ignores_request_credential
           {| _config := {| api_key := Some "gsk_c" |} |} "gsk_c").
  reflexivity.
Defined.

(** *** The effect monad *)

Lemma bind_ok {A B} (w : list effect) (a : A) (k : A -> M B) :
  bind (w, Ok a) k = ((w ++ trace (k a))%list, outcome (k a)).
Proof. unfold bind, trace, outcome. destruct (k a). reflexivity. Qed.

Lemma bind_raise {A B} (w : list effect) (e : exn) (k : A -> M B) :
  bind (w, Raise e) k = (w, Raise e).
Proof. reflexivity. Qed.

Lemma bind_ret {A B} (a : A) (k : A -> M B) : bind (ret a) k = k a.
Proof. unfold ret. rewrite bind_ok. destruct (k a). reflexivity. Qed.

Lemma bind_lift_ok {A B} (a : A) (k : A -> M B) : bind (lift (Ok a)) k = k a.
Proof. apply bind_ret. Qed.

Lemma bind_tell {B} (ev : effect) (k : unit -> M B) :
  bind (tell ev) k = (ev :: trace (k tt), outcome (k tt)).
Proof. unfold tell. rewrite bind_ok. reflexivity. Qed.

(** *** [chat_completion] *)

Section ChatCompletion.

Context {GroqResponse ChatCompletionResponse ChunkIterator : Type}.
Variable get_provider_model_id : string -> result string.
Variable convert_chat_completion_request
  : ChatCompletionRequest -> result (gmap string pyval).
Variable convert_chat_completion_response
  : GroqResponse -> result ChatCompletionResponse.
Variable convert_chat_completion_response_stream : GroqResponse -> ChunkIterator.
Variable create : Groq -> gmap string pyval -> result GroqResponse.

Abbreviation chat_completion' :=
  (chat_completion get_provider_model_id convert_chat_completion_request
     convert_chat_completion_response convert_chat_completion_response_stream
     create).
Abbreviation send' :=
  (send convert_chat_completion_request convert_chat_completion_response
     convert_chat_completion_response_stream create).
Abbreviation call_backend' := (call_backend create).

(** The value that the function returns for a backend response. *)
Definition returned (stream : option bool) (r : GroqResponse)
  : result (ChatResult ChatCompletionResponse ChunkIterator) :=
  match stream with
  | Some true => Ok (Streaming (convert_chat_completion_response_stream r))
  | _ =>
      match convert_chat_completion_response r with
      | Ok x => Ok (Completed x)
      | Raise e => Raise e
      end
  end.

(** The error clause on a well-formed body: a dictionary whose ["error"]
    member, if any, is a dictionary. *)
Lemma on_error_tool_use_failed (d err : gmap string pyval) :
  d !! "error" = Some (PyDict err) ->
  err !! "code" = Some (PyStr "tool_use_failed") ->
  on_error (GroqResponse := GroqResponse) (BadRequestError (PyDict d))
  = ([], Raise (ValueError [PyStr "Groq failed to call a tool"; PyDict err]
                  (Some (BadRequestError (PyDict d))))).
Proof.
  intros Hd He. unfold on_error. simpl. rewrite Hd. simpl. rewrite He. simpl.
  reflexivity.
Qed.

Lemma on_error_other_code (d err : gmap string pyval) :
  d !! "error" = Some (PyDict err) ->
  err !! "code" <> Some (PyStr "tool_use_failed") ->
  on_error (GroqResponse := GroqResponse) (BadRequestError (PyDict d))
  = ([], Raise (BadRequestError (PyDict d))).
Proof.
  intros Hd He. unfold on_error. simpl. rewrite Hd. simpl.
  destruct (err !! "code") as [[| | |s| |]|]; simpl; try reflexivity.
  case_bool_decide as Hs; [subst s; congruence | reflexivity].
Qed.

Lemma on_error_no_error_member (d : gmap string pyval) :
  d !! "error" = None ->
  on_error (GroqResponse := GroqResponse) (BadRequestError (PyDict d))
  = ([], Raise (BadRequestError (PyDict d))).
Proof.
  intros Hd. unfold on_error. simpl. rewrite Hd. simpl.
  rewrite lookup_empty. reflexivity.
Qed.

Lemma on_error_not_bad_request (e : exn) :
  (forall body, e <> BadRequestError body) ->
  on_error (GroqResponse := GroqResponse) e = ([], Raise e).
Proof.
  intros H. destruct e; try reflexivity. exfalso. exact (H body eq_refl).
Qed.

(** The [try] block when the client is obtained: the backend is called once,
    and its response or the image of its exception under [on_error] results. *)
Lemma call_backend_created (self : GroqInferenceAdapter) (ctx : RequestContext)
    (request : gmap string pyval) (client : Groq) :
  outcome (_get_client self ctx) = Ok client ->
  call_backend' self ctx request
  = match create client request with
    | Ok r => (trace (_get_client self ctx) ++ [Created client request], Ok r)%list
    | Raise e =>
        ((trace (_get_client self ctx) ++ [Created client request])
           ++ trace (on_error (GroqResponse := GroqResponse) e),
         outcome (on_error (GroqResponse := GroqResponse) e))%list
    end.
Proof.
  unfold call_backend, outcome, trace.
  destruct (_get_client self ctx) as [w [c|e]]; simpl; intros H; [|discriminate].
  inversion H; subst c.
  destruct (create client request) as [r|e]; simpl.
  - reflexivity.
  - destruct (on_error e) as [w' r']. reflexivity.
Qed.

(** After the model id is resolved, [chat_completion] is [send] on the request
    built from its arguments, preceded by the warning for the preview id. *)
Lemma chat_completion_resolved (self : GroqInferenceAdapter) (ctx : RequestContext)
    (model_id : string) (messages : list pyval)
    (sampling_params response_format : option pyval) (tools : option (list pyval))
    (tool_choice : option ToolChoice) (tool_prompt_format : option ToolPromptFormat)
    (stream : option bool) (logprobs tool_config : option pyval) (m : string) :
  get_provider_model_id model_id = Ok m ->
  let request :=
    {| model := m; messages := messages; sampling_params := sampling_params;
       response_format := response_format; tools := tools; stream := stream;
       logprobs := logprobs; tool_config := tool_config |} in
  trace (chat_completion' self ctx model_id messages sampling_params
           response_format tools tool_choice tool_prompt_format stream logprobs
           tool_config)
  = ((if bool_decide (m = "llama-3.2-3b-preview")
      then [Warned preview_warning] else [])
     ++ trace (send' self ctx request))%list
  /\ outcome (chat_completion' self ctx model_id messages sampling_params
                response_format tools tool_choice tool_prompt_format stream
                logprobs tool_config)
     = outcome (send' self ctx request).
Proof.
  intros Hm request. unfold chat_completion. rewrite Hm, bind_lift_ok.
  fold request. destruct (bool_decide (m = "llama-3.2-3b-preview")).
  - rewrite bind_tell. split; reflexivity.
  - rewrite bind_ret. split; reflexivity.
Qed.

(** [send] when the request converts, the client is obtained and the backend
    answers: the backend is called with the converted request and the
    function returns the converted answer. *)
Lemma send_answered (self : GroqInferenceAdapter) (ctx : RequestContext)
    (request : ChatCompletionRequest) (request' : gmap string pyval)
    (client : Groq) (r : GroqResponse) :
  convert_chat_completion_request request = Ok request' ->
  outcome (_get_client self ctx) = Ok client ->
  create client request' = Ok r ->
  trace (send' self ctx request)
  = (trace (_get_client self ctx) ++ [Created client request'])%list
  /\ outcome (send' self ctx request) = returned (Groq.stream request) r.
Proof.
  intros Hc Hk Hr. unfold send. rewrite Hc, bind_lift_ok.
  rewrite (call_backend_created self ctx request' client Hk), Hr.
  rewrite bind_ok. unfold returned.
  destruct (Groq.stream request) as [[|]|]; simpl;
    try destruct (convert_chat_completion_response r); simpl;
    rewrite ?app_nil_r; split; reflexivity.
Qed.

(** The error clause never returns: it raises, whatever it is given. *)
Lemma on_error_raises (e : exn) :
  exists e', outcome (on_error (GroqResponse := GroqResponse) e) = Raise e'.
Proof.
  destruct e; try (eexists; reflexivity).
  destruct body; try (eexists; reflexivity).
  unfold on_error. simpl.
  destruct (default (PyDict ∅) (d !! "error")) as [| | | | |err];
    try (eexists; reflexivity).
  simpl. destruct (py_eq_str (default PyNone (err !! "code")) "tool_use_failed");
    eexists; reflexivity.
Qed.

(** A body that is no dictionary makes the error clause itself fail. *)
Lemma on_error_body_not_dict (body : pyval) :
  (forall d, body <> PyDict d) ->
  on_error (GroqResponse := GroqResponse) (BadRequestError body)
  = ([], Raise (no_attribute body "get")).
Proof.
  intros H. destruct body; try reflexivity. exfalso. exact (H d eq_refl).
Qed.

(** [send] when the backend raises: the function raises what the error
    clause makes of the backend's exception. *)
Lemma send_failed (self : GroqInferenceAdapter) (ctx : RequestContext)
    (request : ChatCompletionRequest) (request' : gmap string pyval)
    (client : Groq) (e e' : exn) :
  convert_chat_completion_request request = Ok request' ->
  outcome (_get_client self ctx) = Ok client ->
  create client request' = Raise e ->
  outcome (on_error (GroqResponse := GroqResponse) e) = Raise e' ->
  outcome (send' self ctx request) = Raise e'.
Proof.
  intros Hc Hk Hr He'. unfold send. rewrite Hc, bind_lift_ok.
  rewrite (call_backend_created self ctx request' client Hk), Hr, He'.
  reflexivity.
Qed.

(** What [chat_completion] does with a backend exception, on the bodies the
    error clause is written for. *)
Lemma chat_completion_backend_error (self : GroqInferenceAdapter)
    (ctx : RequestContext) (model_id : string) (messages : list pyval)
    (sampling_params response_format : option pyval) (tools : option (list pyval))
    (tool_choice : option ToolChoice) (tool_prompt_format : option ToolPromptFormat)
    (stream : option bool) (logprobs tool_config : option pyval)
    (m : string) (request' : gmap string pyval) (client : Groq) (e : exn) :
  get_provider_model_id model_id = Ok m ->
  convert_chat_completion_request
    {| model := m; messages := messages; sampling_params := sampling_params;
       response_format := response_format; tools := tools; stream := stream;
       logprobs := logprobs; tool_config := tool_config |} = Ok request' ->
  outcome (_get_client self ctx) = Ok client ->
  create client request' = Raise e ->
  let call :=
    chat_completion' self ctx model_id messages sampling_params response_format
      tools tool_choice tool_prompt_format stream logprobs tool_config in
  (forall d err : gmap string pyval,
     e = BadRequestError (PyDict d) ->
     d !! "error" = Some (PyDict err) ->
     err !! "code" = Some (PyStr "tool_use_failed") ->
     outcome call
     = Raise (ValueError [PyStr "Groq failed to call a tool"; PyDict err] (Some e)))
  /\ (forall d err : gmap string pyval,
        e = BadRequestError (PyDict d) ->
        d !! "error" = Some (PyDict err) ->
        err !! "code" <> Some (PyStr "tool_use_failed") ->
        outcome call = Raise e)
  /\ (forall d : gmap string pyval,
        e = BadRequestError (PyDict d) -> d !! "error" = None ->
        outcome call = Raise e)
  /\ ((forall body, e <> BadRequestError body) -> outcome call = Raise e)
  /\ (forall body, e = BadRequestError body -> (forall d, body <> PyDict d) ->
        outcome call = Raise (no_attribute body "get")).
Proof.
  intros Hm Hc Hk Hr call.
  assert (Hcall : forall e',
            outcome (on_error (GroqResponse := GroqResponse) e) = Raise e' ->
            outcome call = Raise e').
  { intros e' He'. unfold call.
    destruct (chat_completion_resolved self ctx model_id messages sampling_params
                response_format tools tool_choice tool_prompt_format stream
                logprobs tool_config m Hm) as [_ ->].
    exact (send_failed self ctx _ request' client e e' Hc Hk Hr He'). }
  repeat split.
  - intros d err -> Hd He. apply Hcall.
    rewrite (on_error_tool_use_failed d err Hd He). reflexivity.
  - intros d err -> Hd He. apply Hcall.
    rewrite (on_error_other_code d err Hd He). reflexivity.
  - intros d -> Hd. apply Hcall.
    rewrite (on_error_no_error_member d Hd). reflexivity.
  - intros H. apply Hcall. rewrite (on_error_not_bad_request e H). reflexivity.
  - intros body -> H. apply Hcall.
    rewrite (on_error_body_not_dict body H). reflexivity.
Qed.

(** C7: when the resolved model id is ["llama-3.2-3b-preview"] the warning is
    emitted, once and before anything else, and the call goes on as for any
    other id: its outcome is that of sending the request, and when the
    backend answers, the backend has been called with the converted request
    and the function returns the converted answer. *)
Theorem preview_model_warns_and_proceeds (self : GroqInferenceAdapter)
    (ctx : RequestContext) (model_id : string) (messages : list pyval)
    (sampling_params response_format : option pyval) (tools : option (list pyval))
    (tool_choice : option ToolChoice) (tool_prompt_format : option ToolPromptFormat)
    (stream : option bool) (logprobs tool_config : option pyval) :
  get_provider_model_id model_id = Ok "llama-3.2-3b-preview" ->
  let request :=
    {| model := "llama-3.2-3b-preview"; messages := messages;
       sampling_params := sampling_params; response_format := response_format;
       tools := tools; stream := stream; logprobs := logprobs;
       tool_config := tool_config |} in
  let call :=
    chat_completion' self ctx model_id messages sampling_params response_format
      tools tool_choice tool_prompt_format stream logprobs tool_config in
  trace call = Warned preview_warning :: trace (send' self ctx request)
  /\ outcome call = outcome (send' self ctx request)
  /\ (forall request' client r,
        convert_chat_completion_request request = Ok request' ->
        outcome (_get_client self ctx) = Ok client ->
        create client request' = Ok r ->
        trace call
        = (Warned preview_warning :: trace (_get_client self ctx)
           ++ [Created client request'])%list
        /\ outcome call = returned stream r).
Proof.
  intros Hm request call.
  destruct (chat_completion_resolved self ctx model_id messages sampling_params
              response_format tools tool_choice tool_prompt_format stream
              logprobs tool_config _ Hm) as [Ht Ho].
  fold request call in Ht, Ho.
  rewrite bool_decide_eq_true_2 in Ht by reflexivity.
  split; [exact Ht | split; [exact Ho |]].
  intros request' client r Hc Hk Hr.
  destruct (send_answered self ctx request request' client r Hc Hk Hr) as [Hst Hso].
  rewrite Ht, Ho, Hst, Hso. split; reflexivity.
Qed.

(** C10: [tool_choice] and [tool_prompt_format] do not reach the request:
    two calls that differ in them only have the same trace, hence call the
    backend with the same converted request, and the same outcome; the
    request is built from the other arguments. *)
Theorem chat_completion_ignores_tool_choice (self : GroqInferenceAdapter)
    (ctx : RequestContext) (model_id : string) (messages : list pyval)
    (sampling_params response_format : option pyval) (tools : option (list pyval))
    (tool_choice1 tool_choice2 : option ToolChoice)
    (tool_prompt_format1 tool_prompt_format2 : option ToolPromptFormat)
    (stream : option bool) (logprobs tool_config : option pyval) :
  chat_completion' self ctx model_id messages sampling_params response_format
    tools tool_choice1 tool_prompt_format1 stream logprobs tool_config
  = chat_completion' self ctx model_id messages sampling_params response_format
      tools tool_choice2 tool_prompt_format2 stream logprobs tool_config
  /\ (forall m, get_provider_model_id model_id = Ok m ->
        outcome (chat_completion' self ctx model_id messages sampling_params
                   response_format tools tool_choice1 tool_prompt_format1 stream
                   logprobs tool_config)
        = outcome (send' self ctx
                     {| model := m; messages := messages;
                        sampling_params := sampling_params;
                        response_format := response_format; tools := tools;
                        stream := stream; logprobs := logprobs;
                        tool_config := tool_config |})).
Proof.
  split; [reflexivity|].
  intros m Hm.
  exact (proj2 (chat_completion_resolved self ctx model_id messages
                  sampling_params response_format tools tool_choice1
                  tool_prompt_format1 stream logprobs tool_config m Hm)).
Qed.

End ChatCompletion.

(** *** A concrete adapter *)

(** A registry with one alias, converters that keep what they are given, and
    backends that answer or raise. *)
Definition demo_registry (id : string) : result string :=
  if bool_decide (id = "meta-llama/Llama-3.2-3B-Instruct")
  then Ok "llama-3.2-3b-preview" else Ok id.

Definition demo_request (r : ChatCompletionRequest) : result (gmap string pyval) :=
  Ok {[ "model" := PyStr (model r); "messages" := PyList (messages r) ]}.

Definition demo_response (r : pyval) : result pyval := Ok r.
Definition demo_stream (r : pyval) : list pyval := [r].

Definition answering (r : pyval) (_ : Groq) (_ : gmap string pyval) : result pyval :=
  Ok r.
Definition raising (e : exn) (_ : Groq) (_ : gmap string pyval) : result pyval :=
  Raise e.

Definition demo_adapter : GroqInferenceAdapter :=
  {| _config := {| api_key := Some "gsk_c" |} |}.
Definition no_provider_data : RequestContext := {| provider_data := None |}.

Definition demo_chat (backend : Groq -> gmap string pyval -> result pyval)
    (model_id : string) : M (ChatResult pyval (list pyval)) :=
  chat_completion demo_registry demo_request demo_response demo_stream backend
    demo_adapter no_provider_data model_id [PyStr "hi"] None None None
    (Some auto) None (Some false) None None.

Lemma preview_model_warns_and_proceeds_witness :
  demo_registry "meta-llama/Llama-3.2-3B-Instruct" = Ok "llama-3.2-3b-preview"
  /\ trace (demo_chat (answering (PyStr "Hello")) "meta-llama/Llama-3.2-3B-Instruct")
     = [ Warned preview_warning;
         Created {| client_api_key := "gsk_c" |}
           {[ "model" := PyStr "llama-3.2-3b-preview";
              "messages" := PyList [PyStr "hi"] ]} ]
  /\ outcome (demo_chat (answering (PyStr "Hello")) "meta-llama/Llama-3.2-3B-Instruct")
     = Ok (Completed (PyStr "Hello")).
Proof.
  split; [reflexivity|].
  destruct (preview_model_warns_and_proceeds demo_registry demo_request
              demo_response demo_stream (answering (PyStr "Hello"))
              demo_adapter no_provider_data "meta-llama/Llama-3.2-3B-Instruct"
              [PyStr "hi"] None None None (Some auto) None (Some false) None None
              eq_refl) as [_ [_ H]].
  exact (H _ {| client_api_key := "gsk_c" |} (PyStr "Hello")
           eq_refl eq_refl eq_refl).
Defined.

(** The error clause on the bodies it is written for: the translated error
    carries the backend's payload, any other error is raised again. *)
Example chat_completion_error_examples :
  let payload : gmap string pyval :=
    {[ "code" := PyStr "tool_use_failed"; "message" := PyStr "no tool" ]} in
  let rate : gmap string pyval := {[ "code" := PyStr "rate_limit_exceeded" ]} in
  outcome (demo_chat (raising (BadRequestError (PyDict {[ "error" := PyDict payload ]})))
             "llama-3.1-8b-instant")
  = Raise (ValueError [PyStr "Groq failed to call a tool"; PyDict payload]
             (Some (BadRequestError (PyDict {[ "error" := PyDict payload ]}))))
  /\ outcome (demo_chat (raising (BadRequestError (PyDict {[ "error" := PyDict rate ]})))
                "llama-3.1-8b-instant")
     = Raise (BadRequestError (PyDict {[ "error" := PyDict rate ]}))
  /\ outcome (demo_chat (raising (APIError "RateLimitError" PyNone))
                "llama-3.1-8b-instant")
     = Raise (APIError "RateLimitError" PyNone).
Proof. repeat split; vm_compute; reflexivity. Qed.

(** C2, where the code departs from it: the backend's [BadRequestError]
    carries a body that is no dictionary (the text of a response that is not
    JSON, or no body at all), or a dictionary whose ["error"] member is a
    string. The error clause then fails on [.get], and the caller receives an
    [AttributeError] in place of the backend's exception. *)
Theorem chat_completion_bad_request_text_body :
  outcome (demo_chat (raising (BadRequestError (PyStr "Bad Request")))
             "llama-3.1-8b-instant")
  = Raise (AttributeError "'str' object has no attribute 'get'")
  /\ outcome (demo_chat (raising (BadRequestError PyNone)) "llama-3.1-8b-instant")
     = Raise (AttributeError "'NoneType' object has no attribute 'get'")
  /\ outcome (demo_chat
                (raising (BadRequestError (PyDict {[ "error" := PyStr "bad request" ]})))
                "llama-3.1-8b-instant")
     = Raise (AttributeError "'str' object has no attribute 'get'").
Proof. repeat split; vm_compute; reflexivity. Qed.

End GroqFacts.

(** ** The streaming tool-call parser *)

Module GroqUtilsFacts.

Import Groq GroqUtils.
Local Open Scope list_scope.

Lemma spans_app (a b : list StreamChunk) : spans (a ++ b) = spans a ++ spans b.
Proof. unfold spans. rewrite map_app, concat_app. reflexivity. Qed.

Lemma spans_cons (c : StreamChunk) (cs : list StreamChunk) :
  spans (c :: cs) = span c ++ spans cs.
Proof. reflexivity. Qed.

Lemma spans_singleton (c : StreamChunk) : spans [c] = span c.
Proof. unfold spans. simpl. apply app_nil_r. Qed.

Lemma spans_text (deltas : list text_t) : spans (map text deltas) = concat deltas.
Proof.
  induction deltas as [|d ds IH]; [reflexivity|].
  simpl. rewrite spans_cons, IH. reflexivity.
Qed.

(** A chunk of a sequence accounts for the segment of the sequence's text
    that begins where the segments of the chunks before it end. *)
Lemma span_position (chunks pre post : list StreamChunk) (e : StreamChunk) :
  chunks = pre ++ e :: post ->
  span e = take (length (span e)) (drop (length (spans pre)) (spans chunks)).
Proof.
  intros ->. rewrite spans_app, spans_cons.
  rewrite drop_app_length, take_app_length. reflexivity.
Qed.

Lemma strip_suffix_spec (m buf before : text_t) :
  strip_suffix m buf = Some before -> buf = before ++ m.
Proof.
  revert before. induction buf as [|c rest IH]; intros before; simpl.
  - case_bool_decide as Hm; [|discriminate].
    intros H. inversion H; subst. reflexivity.
  - case_bool_decide as Hm.
    + intros H. inversion H; subst. reflexivity.
    + destruct (strip_suffix m rest) as [b|] eqn:Hr; simpl; [|discriminate].
      intros H. inversion H; subst. rewrite (IH b eq_refl). reflexivity.
Qed.

Lemma hold_back_spec (m buf : text_t) :
  buf = fst (hold_back m buf) ++ snd (hold_back m buf).
Proof.
  induction buf as [|c rest IH]; [reflexivity|].
  cbn [hold_back]. destruct (proper_prefix (c :: rest) m); [reflexivity|].
  destruct (hold_back m rest) as [out keep]. simpl in *. rewrite <- IH.
  reflexivity.
Qed.

(** What is held back could still become the marker. *)
Lemma hold_back_keeps_prefix (m buf : text_t) :
  snd (hold_back m buf) = [] \/ proper_prefix (snd (hold_back m buf)) m = true.
Proof.
  induction buf as [|c rest IH]; [left; reflexivity|].
  cbn [hold_back]. destruct (proper_prefix (c :: rest) m) eqn:H.
  - right. exact H.
  - destruct (hold_back m rest) as [out keep]. exact IH.
Qed.

Section ParserFacts.

Variable parse_tool_call : ToolPromptFormat -> text_t -> option ToolCall.
Variable max_candidate : nat.
Variable start_marker : ToolPromptFormat -> text_t.

Abbreviation pending_chunk' := (pending_chunk parse_tool_call).
Abbreviation scan' := (scan max_candidate start_marker).
Abbreviation step' := (step parse_tool_call max_candidate start_marker).
Abbreviation feed_chars' := (feed_chars parse_tool_call max_candidate start_marker).
Abbreviation end_of_delta' := (end_of_delta parse_tool_call start_marker).
Abbreviation feed' := (feed parse_tool_call max_candidate start_marker).
Abbreviation feed_all' := (feed_all parse_tool_call max_candidate start_marker).
Abbreviation end_of_stream' := (end_of_stream parse_tool_call).
Abbreviation emitted' := (emitted parse_tool_call max_candidate start_marker).
Abbreviation convert' :=
  (convert_chat_completion_response_stream parse_tool_call max_candidate
     start_marker).

(** *** Every emission accounts for the text it takes out of the buffer *)

Lemma span_pending_chunk f buf : span (pending_chunk' f buf) = buf.
Proof.
  unfold pending_chunk. destruct (balanced f buf); [|reflexivity].
  destruct (parse_tool_call f buf); reflexivity.
Qed.

Lemma spans_flush_text buf : spans (flush_text buf) = buf.
Proof. destruct buf; [reflexivity|]. apply spans_singleton. Qed.

Lemma buffer_candidate f buf : buffer (candidate max_candidate f buf) = buf.
Proof. unfold candidate. destruct (_ || _); reflexivity. Qed.

Lemma scan_accounts f buf c :
  spans (snd (scan' f buf c)) ++ buffer (fst (scan' f buf c)) = buf ++ [c].
Proof.
  unfold scan.
  destruct (strip_suffix (start_marker f) (buf ++ [c])) as [before|] eqn:H; simpl.
  - rewrite spans_flush_text, buffer_candidate.
    symmetry. exact (strip_suffix_spec _ _ _ H).
  - reflexivity.
Qed.

Lemma step_accounts f p c :
  spans (snd (step' f p c)) ++ buffer (fst (step' f p c)) = buffer p ++ [c].
Proof.
  unfold step. destruct (mode p).
  - apply scan_accounts.
  - simpl. apply buffer_candidate.
  - pose proof (scan_accounts f [] c) as H.
    destruct (scan' f [] c) as [p' out]. simpl in *.
    rewrite spans_cons, span_pending_chunk, <- app_assoc, H. reflexivity.
Qed.

Lemma feed_chars_accounts f cs : forall p,
  spans (snd (feed_chars' f p cs)) ++ buffer (fst (feed_chars' f p cs))
  = buffer p ++ cs.
Proof.
  induction cs as [|c rest IH]; intros p; simpl.
  - rewrite app_nil_r. reflexivity.
  - pose proof (step_accounts f p c) as Hs.
    destruct (step' f p c) as [p1 out1]. simpl in Hs.
    specialize (IH p1).
    destruct (feed_chars' f p1 rest) as [p2 out2]. simpl in *.
    rewrite spans_app, <- app_assoc, IH, app_assoc, Hs, <- app_assoc.
    reflexivity.
Qed.

Lemma end_of_delta_accounts f p :
  spans (snd (end_of_delta' f p)) ++ buffer (fst (end_of_delta' f p)) = buffer p.
Proof.
  unfold end_of_delta. destruct (mode p); simpl.
  - pose proof (hold_back_spec (start_marker f) (buffer p)) as H.
    destruct (hold_back (start_marker f) (buffer p)) as [out keep]. simpl in *.
    rewrite spans_flush_text. symmetry. exact H.
  - reflexivity.
  - rewrite spans_singleton, span_pending_chunk. apply app_nil_r.
Qed.

Lemma feed_accounts f p delta :
  spans (snd (feed' f p delta)) ++ buffer (fst (feed' f p delta))
  = buffer p ++ delta.
Proof.
  unfold feed.
  pose proof (feed_chars_accounts f delta p) as Hc.
  destruct (feed_chars' f p delta) as [p1 out1]. simpl in Hc.
  pose proof (end_of_delta_accounts f p1) as He.
  destruct (end_of_delta' f p1) as [p2 out2]. simpl in *.
  rewrite spans_app, <- app_assoc, He. exact Hc.
Qed.

(** The invariant of the stream: what has been emitted, followed by what is
    buffered, is what has been received. *)
Lemma feed_all_accounts f deltas : forall p,
  spans (snd (feed_all' f p deltas)) ++ buffer (fst (feed_all' f p deltas))
  = buffer p ++ concat deltas.
Proof.
  induction deltas as [|d rest IH]; intros p; simpl.
  - rewrite app_nil_r. reflexivity.
  - pose proof (feed_accounts f p d) as Hd.
    destruct (feed' f p d) as [p1 out1]. simpl in Hd.
    specialize (IH p1).
    destruct (feed_all' f p1 rest) as [p2 out2]. simpl in *.
    rewrite spans_app, <- app_assoc, IH, app_assoc, Hd, <- app_assoc.
    reflexivity.
Qed.

Lemma end_of_stream_accounts f p : spans (end_of_stream' f p) = buffer p.
Proof.
  unfold end_of_stream. destruct (mode p).
  - apply spans_flush_text.
  - apply spans_singleton.
  - rewrite spans_singleton. apply span_pending_chunk.
Qed.

(** *** Emission follows the deltas *)

Lemma feed_all_app f ds1 ds2 : forall p,
  feed_all' f p (ds1 ++ ds2)
  = (fst (feed_all' f (fst (feed_all' f p ds1)) ds2),
     snd (feed_all' f p ds1) ++ snd (feed_all' f (fst (feed_all' f p ds1)) ds2)).
Proof.
  induction ds1 as [|d rest IH]; intros p; simpl.
  - destruct (feed_all' f p ds2). reflexivity.
  - destruct (feed' f p d) as [p1 out1]. rewrite IH.
    destruct (feed_all' f p1 rest) as [p2 out2]. simpl.
    rewrite app_assoc. reflexivity.
Qed.

Lemma emitted_accounts tools f deltas :
  spans (emitted' tools f deltas) `prefix_of` concat deltas.
Proof.
  unfold emitted. destruct (tools_offered tools).
  - pose proof (feed_all_accounts f deltas idle) as H. simpl in H.
    exists (buffer (fst (feed_all' f idle deltas))). symmetry. exact H.
  - rewrite spans_text. reflexivity.
Qed.

Lemma convert_extends_emitted tools f ds1 ds2 stop_reason :
  emitted' tools f ds1 `prefix_of` convert' tools f (ds1 ++ ds2) stop_reason.
Proof.
  unfold emitted, convert_chat_completion_response_stream.
  destruct (tools_offered tools).
  - rewrite feed_all_app. simpl. rewrite <- !app_assoc. eexists. reflexivity.
  - rewrite map_app, <- app_assoc. eexists. reflexivity.
Qed.

Lemma convert_spans tools f deltas stop_reason :
  spans (convert' tools f deltas stop_reason) = concat deltas.
Proof.
  unfold convert_chat_completion_response_stream.
  rewrite spans_app. change (spans [complete stop_reason]) with (@nil ascii).
  rewrite app_nil_r. destruct (tools_offered tools).
  - pose proof (feed_all_accounts f deltas idle) as H.
    destruct (feed_all' f idle deltas) as [p out]. simpl in H.
    rewrite spans_app, end_of_stream_accounts. exact H.
  - apply spans_text.
Qed.

(** C1: for every backend text stream, however it is cut into deltas, the
    chunks account for the whole stream and nothing else (the text deltas and
    the raw spans of the tool calls, succeeded or failed, concatenated in
    emission order, are the backend's output); each chunk accounts for the
    segment that begins where the segments of its predecessors end, so the
    chunks come in source order and no two of them overlap; the chunks emitted
    for the first deltas stay, in place, when further deltas arrive, and
    account only for text already received; and two ways of cutting the same
    stream account for the same text. *)
Theorem stream_accounting (tools : option (list pyval)) (f : ToolPromptFormat)
    (deltas : list text_t) (stop_reason : string) :
  spans (convert' tools f deltas stop_reason) = concat deltas
  /\ (forall pre e post,
        convert' tools f deltas stop_reason = pre ++ e :: post ->
        span e = take (length (span e)) (drop (length (spans pre)) (concat deltas)))
  /\ (forall ds1 ds2, deltas = ds1 ++ ds2 ->
        emitted' tools f ds1 `prefix_of` convert' tools f deltas stop_reason
        /\ spans (emitted' tools f ds1) `prefix_of` concat ds1)
  /\ (forall deltas', concat deltas' = concat deltas ->
        spans (convert' tools f deltas' stop_reason)
        = spans (convert' tools f deltas stop_reason)).
Proof.
  split; [apply convert_spans|split; [|split]].
  - intros pre e post H.
    rewrite <- (convert_spans tools f deltas stop_reason).
    exact (span_position _ pre post e H).
  - intros ds1 ds2 ->. split.
    + apply convert_extends_emitted.
    + apply emitted_accounts.
  - intros deltas' H. rewrite !convert_spans. exact H.
Qed.

(** Without tools every delta is a text chunk. *)
Lemma no_tools_all_text (tools : option (list pyval)) f deltas stop_reason :
  tools_offered tools = false ->
  convert' tools f deltas stop_reason = map text deltas ++ [complete stop_reason].
Proof.
  intros H. unfold convert_chat_completion_response_stream. rewrite H. reflexivity.
Qed.

End ParserFacts.

(** *** Scenarios *)

(** A structural parser for the examples: [name] is called when the text
    after the opening bracket reads [name(]. *)
Fixpoint after (c0 : ascii) (s : text_t) : text_t :=
  match s with
  | [] => []
  | c :: rest => if bool_decide (c = c0) then rest else after c0 rest
  end.

Fixpoint up_to_paren (s : text_t) : option text_t :=
  match s with
  | [] => None
  | c :: rest =>
      if bool_decide (c = "("%char) then Some []
      else option_map (cons c) (up_to_paren rest)
  end.

Definition call_parser (f : ToolPromptFormat) (raw : text_t) : option ToolCall :=
  match up_to_paren (after (open_bracket f) raw) with
  | Some (n :: name) =>
      Some {| tool_name := string_of_list_ascii (n :: name);
              arguments := ∅; call_id := EmptyString |}
  | _ => None
  end.

Definition chars (s : string) : text_t := list_ascii_of_string s.

Definition weather_tool : option (list pyval) :=
  Some [PyDict {[ "name" := PyStr "get_weather" ]}].

(** The scenario of the spec: prose, a call cut in two deltas, prose. *)
Example weather_scenario :
  convert_chat_completion_response_stream call_parser 1000 bracket_marker weather_tool python_list
    [chars "I'll check. "; chars "[get_weather("; chars "location='SF')]";
     chars " Done."] "end_of_turn"
  = [ text (chars "I'll check. ");
      tool_call_succeeded
        {| tool_name := "get_weather"; arguments := ∅; call_id := EmptyString |}
        (chars "[get_weather(location='SF')]");
      text (chars " Done.");
      complete "end_of_turn" ].
Proof. vm_compute. reflexivity. Qed.

(** A marker in the middle of a delta, a malformed candidate, a stream that
    ends inside a candidate, and a request without tools. *)
Example parser_scenarios :
  convert_chat_completion_response_stream call_parser 1000 bracket_marker weather_tool python_list
    [chars "ok [f(1)] and ["; chars "1, 2]"] "end_of_turn"
  = [ text (chars "ok ");
      tool_call_succeeded {| tool_name := "f"; arguments := ∅; call_id := EmptyString |}
        (chars "[f(1)]");
      text (chars " and ");
      tool_call_failed (chars "[1, 2]");
      complete "end_of_turn" ]
  /\ convert_chat_completion_response_stream call_parser 1000 bracket_marker weather_tool json
       [chars "see {"; chars "a: "] "out_of_tokens"
     = [ text (chars "see "); tool_call_failed (chars "{a: ");
         complete "out_of_tokens" ]
  /\ convert_chat_completion_response_stream call_parser 1000 bracket_marker None python_list
       [chars "a [b"; chars "] c"] "end_of_turn"
     = [ text (chars "a [b"); text (chars "] c"); complete "end_of_turn" ]
  /\ convert_chat_completion_response_stream call_parser 3 bracket_marker weather_tool python_list
       [chars "[abcdef"] "end_of_turn"
     = [ tool_call_failed (chars "[abc"); text (chars "def");
         complete "end_of_turn" ].
Proof. repeat split; vm_compute; reflexivity. Qed.

(** A marker of two characters, cut by the boundary of two deltas: the
    beginning of the marker is held back and the candidate is detected; when
    the next delta does not complete the marker, the text held back is
    emitted with it. *)
Example boundary_spanning_marker :
  convert_chat_completion_response_stream call_parser 1000 (fun _ => chars "@[")
    weather_tool python_list [chars "go @"; chars "[f(1)] ok"] "end_of_turn"
  = [ text (chars "go ");
      tool_call_succeeded {| tool_name := "f"; arguments := ∅; call_id := EmptyString |}
        (chars "@[f(1)]");
      text (chars " ok");
      complete "end_of_turn" ]
  /\ convert_chat_completion_response_stream call_parser 1000 (fun _ => chars "@[")
       weather_tool python_list [chars "mail a@"; chars "b.c"] "end_of_turn"
     = [ text (chars "mail a"); text (chars "@b.c"); complete "end_of_turn" ]
  /\ emitted call_parser 1000 (fun _ => chars "@[") weather_tool python_list
       [chars "go @"]
     = [ text (chars "go ") ].
Proof. repeat split; vm_compute; reflexivity. Qed.

End GroqUtilsFacts.

(** ** More about the Groq adapter *)

Module GroqMoreFacts.

Import Groq GroqFacts.
Local Open Scope groq_scope.

(** The warnings of a trace, in order. *)
Definition warnings (tr : list effect) : list string :=
  omap (fun ev => match ev with Warned w => Some w | _ => None end) tr.

(** The backend calls of a trace, in order. *)
Definition backend_calls (tr : list effect) : list (Groq * gmap string pyval) :=
  omap (fun ev => match ev with Created c r => Some (c, r) | _ => None end) tr.

Lemma warnings_app (a b : list effect) : warnings (a ++ b) = (warnings a ++ warnings b)%list.
Proof. apply omap_app. Qed.

Lemma backend_calls_app (a b : list effect) :
  backend_calls (a ++ b) = (backend_calls a ++ backend_calls b)%list.
Proof. apply omap_app. Qed.

Lemma get_client_trace (self : GroqInferenceAdapter) (ctx : RequestContext) :
  trace (_get_client self ctx) = [] \/ trace (_get_client self ctx) = [ReadProviderData].
Proof.
  unfold _get_client. destruct (api_key (_config self)); [left; reflexivity|].
  right. destruct ctx as [[[[s|]]|]]; simpl; try reflexivity.
  destruct (bool_decide (s = EmptyString)); reflexivity.
Qed.

Lemma get_client_quiet (self : GroqInferenceAdapter) (ctx : RequestContext) :
  warnings (trace (_get_client self ctx)) = []
  /\ backend_calls (trace (_get_client self ctx)) = [].
Proof. destruct (get_client_trace self ctx) as [-> | ->]; split; reflexivity. Qed.

(** [_get_client] fails in one way only. *)
Lemma get_client_raise (self : GroqInferenceAdapter) (ctx : RequestContext) e :
  outcome (_get_client self ctx) = Raise e ->
  e = ValueError [PyStr missing_key_message] None.
Proof.
  unfold _get_client. destruct (api_key (_config self)); [discriminate|].
  destruct ctx as [[[[s|]]|]]; simpl; try (intros H; inversion H; reflexivity).
  destruct (bool_decide (s = EmptyString)); simpl; intros H; inversion H; reflexivity.
Qed.

Section ChatCompletionMore.

Context {GroqResponse ChatCompletionResponse ChunkIterator : Type}.
Variable get_provider_model_id : string -> result string.
Variable convert_chat_completion_request
  : ChatCompletionRequest -> result (gmap string pyval).
Variable convert_chat_completion_response
  : GroqResponse -> result ChatCompletionResponse.
Variable convert_chat_completion_response_stream : GroqResponse -> ChunkIterator.
Variable create : Groq -> gmap string pyval -> result GroqResponse.

Abbreviation chat_completion' :=
  (chat_completion get_provider_model_id convert_chat_completion_request
     convert_chat_completion_response convert_chat_completion_response_stream
     create).
Abbreviation send' :=
  (send convert_chat_completion_request convert_chat_completion_response
     convert_chat_completion_response_stream create).
Abbreviation call_backend' := (call_backend create).
Abbreviation returned' :=
  (returned convert_chat_completion_response convert_chat_completion_response_stream).

Lemma on_error_shape (e : exn) :
  exists e', on_error (GroqResponse := GroqResponse) e = ([], Raise e').
Proof.
  destruct e; try (eexists; reflexivity).
  destruct body; try (eexists; reflexivity).
  unfold on_error. simpl.
  destruct (default (PyDict ∅) (d !! "error")) as [| | | | |err];
    try (eexists; reflexivity).
  simpl. destruct (py_eq_str (default PyNone (err !! "code")) "tool_use_failed");
    eexists; reflexivity.
Qed.

(** The [try] block in full: what it leaves in the trace and how it ends. *)
Lemma call_backend_cases (self : GroqInferenceAdapter) (ctx : RequestContext)
    (request : gmap string pyval) :
  call_backend' self ctx request
  = match outcome (_get_client self ctx) with
    | Ok client =>
        match create client request with
        | Ok r => ((trace (_get_client self ctx) ++ [Created client request])%list, Ok r)
        | Raise e =>
            ((trace (_get_client self ctx) ++ [Created client request])%list,
             outcome (on_error (GroqResponse := GroqResponse) e))
        end
    | Raise e => (trace (_get_client self ctx), Raise e)
    end.
Proof.
  destruct (outcome (_get_client self ctx)) as [client|e] eqn:Hk.
  - rewrite (call_backend_created create self ctx request client Hk).
    destruct (create client request) as [r|e]; [reflexivity|].
    destruct (on_error_shape e) as [e' ->]. simpl. rewrite app_nil_r. reflexivity.
  - pose proof (get_client_raise self ctx e Hk) as ->.
    unfold call_backend, outcome, trace in *.
    destruct (_get_client self ctx) as [w r]. simpl in Hk. subst r. simpl.
    rewrite app_nil_r. reflexivity.
Qed.

(** [send] in full. *)
Lemma send_cases (self : GroqInferenceAdapter) (ctx : RequestContext)
    (request : ChatCompletionRequest) :
  send' self ctx request
  = match convert_chat_completion_request request with
    | Raise e => ([], Raise e)
    | Ok request' =>
        match outcome (call_backend' self ctx request') with
        | Ok r => (trace (call_backend' self ctx request'),
                   returned' (Groq.stream request) r)
        | Raise e => (trace (call_backend' self ctx request'), Raise e)
        end
    end.
Proof.
  unfold send. destruct (convert_chat_completion_request request) as [request'|e];
    [rewrite bind_lift_ok | reflexivity].
  destruct (call_backend' self ctx request') as [w [r|e]]; [|reflexivity].
  rewrite bind_ok. unfold returned, outcome, trace.
  destruct (Groq.stream request) as [[|]|]; simpl;
    try destruct (convert_chat_completion_response r); simpl;
    rewrite ?app_nil_r; reflexivity.
Qed.

Lemma call_backend_quiet (self : GroqInferenceAdapter) (ctx : RequestContext)
    (request : gmap string pyval) :
  warnings (trace (call_backend' self ctx request)) = []
  /\ (length (backend_calls (trace (call_backend' self ctx request))) <= 1)%nat.
Proof.
  rewrite call_backend_cases.
  destruct (get_client_quiet self ctx) as [Hw Hb].
  destruct (outcome (_get_client self ctx)) as [client|e].
  - destruct (create client request); unfold trace at 1 3; simpl;
      rewrite warnings_app, backend_calls_app, Hw, Hb; simpl; split; auto.
  - unfold trace at 1 3; simpl. fold (trace (_get_client self ctx)).
    rewrite Hw, Hb. simpl. split; [reflexivity | lia].
Qed.

Lemma send_quiet (self : GroqInferenceAdapter) (ctx : RequestContext)
    (request : ChatCompletionRequest) :
  warnings (trace (send' self ctx request)) = []
  /\ (length (backend_calls (trace (send' self ctx request))) <= 1)%nat.
Proof.
  rewrite send_cases.
  destruct (convert_chat_completion_request request) as [request'|e];
    [|split; [reflexivity | simpl; lia]].
  destruct (call_backend_quiet self ctx request') as [Hw Hb].
  destruct (outcome (call_backend' self ctx request')); split; assumption.
Qed.

(** *** Properties of a call *)

Variable self : GroqInferenceAdapter.
Variable ctx : RequestContext.
Variable model_id : string.
Variable messages : list pyval.
Variables sampling_params response_format : option pyval.
Variable tools : option (list pyval).
Variable tool_choice : option ToolChoice.
Variable tool_prompt_format : option ToolPromptFormat.
Variable stream : option bool.
Variables logprobs tool_config : option pyval.

Abbreviation call :=
  (chat_completion' self ctx model_id messages sampling_params response_format
     tools tool_choice tool_prompt_format stream logprobs tool_config).

(** The request of a call whose model id resolves to [m]. *)
Abbreviation request_for m :=
  {| Groq.model := m; Groq.messages := messages;
     Groq.sampling_params := sampling_params;
     Groq.response_format := response_format; Groq.tools := tools;
     Groq.stream := stream; Groq.logprobs := logprobs;
     Groq.tool_config := tool_config |}.

Lemma call_resolved (m : string) :
  get_provider_model_id model_id = Ok m ->
  trace call
  = ((if bool_decide (m = "llama-3.2-3b-preview")
      then [Warned preview_warning] else [])
     ++ trace (send' self ctx (request_for m)))%list
  /\ outcome call = outcome (send' self ctx (request_for m)).
Proof.
  intros Hm.
  exact (chat_completion_resolved get_provider_model_id
           convert_chat_completion_request convert_chat_completion_response
           convert_chat_completion_response_stream create self ctx model_id
           messages sampling_params response_format tools tool_choice
           tool_prompt_format stream logprobs tool_config m Hm).
Qed.

(** X5: The warning depends on the resolved id alone: it is emitted once when
    the id is ["llama-3.2-3b-preview"] and never otherwise, however the call
    ends. *)
Theorem warning_iff_preview (m : string) :
  get_provider_model_id model_id = Ok m ->
  warnings (trace call)
  = if bool_decide (m = "llama-3.2-3b-preview") then [preview_warning] else [].
Proof.
  intros Hm. destruct (call_resolved m Hm) as [-> _].
  rewrite warnings_app. destruct (send_quiet self ctx (request_for m)) as [-> _].
  destruct (bool_decide (m = "llama-3.2-3b-preview")); reflexivity.
Qed.

(** X4: An answered call: the backend is called once, with the converted request
    and the client of [_get_client]. With [stream=True] the chunk iterator is
    returned and the response converter is not consulted; otherwise, [None]
    included, the converted response is returned, or the converter's error
    raised. *)
Theorem answered_call (m : string) (request' : gmap string pyval)
    (client : Groq) (r : GroqResponse) :
  get_provider_model_id model_id = Ok m ->
  convert_chat_completion_request (request_for m) = Ok request' ->
  outcome (_get_client self ctx) = Ok client ->
  create client request' = Ok r ->
  backend_calls (trace call) = [(client, request')]
  /\ outcome call
     = match stream with
       | Some true => Ok (Streaming (convert_chat_completion_response_stream r))
       | _ =>
           match convert_chat_completion_response r with
           | Ok x => Ok (Completed x)
           | Raise e => Raise e
           end
       end.
Proof.
  intros Hm Hc Hk Hr. destruct (call_resolved m Hm) as [-> ->].
  destruct (send_answered convert_chat_completion_request
              convert_chat_completion_response
              convert_chat_completion_response_stream create self ctx
              (request_for m) request' client r Hc Hk Hr) as [-> ->].
  split; [|reflexivity].
  rewrite !backend_calls_app. destruct (get_client_quiet self ctx) as [_ ->].
  destruct (bool_decide (m = "llama-3.2-3b-preview")); reflexivity.
Qed.

(** X3: A backend exception is never swallowed and the call is not retried:
    whatever the backend raises, the call raises, and the backend has been
    called once. *)
Theorem backend_error_raises (m : string) (request' : gmap string pyval)
    (client : Groq) (e : exn) :
  get_provider_model_id model_id = Ok m ->
  convert_chat_completion_request (request_for m) = Ok request' ->
  outcome (_get_client self ctx) = Ok client ->
  create client request' = Raise e ->
  is_ok (outcome call) = false
  /\ backend_calls (trace call) = [(client, request')].
Proof.
  intros Hm Hc Hk Hr. destruct (call_resolved m Hm) as [-> ->].
  rewrite send_cases, Hc, call_backend_cases, Hk, Hr.
  destruct (on_error_shape e) as [e' ->]. simpl.
  rewrite !backend_calls_app. destruct (get_client_quiet self ctx) as [_ ->].
  split; [reflexivity|].
  destruct (bool_decide (m = "llama-3.2-3b-preview")); reflexivity.
Qed.

(** X1: The backend's "tool_use_failed" is translated: the caller receives a
    [ValueError] whose arguments are the message and the backend's error
    object, raised from the backend's exception. *)
Theorem tool_use_failed_translated (m : string) (request' : gmap string pyval)
    (client : Groq) (d err : gmap string pyval) :
  get_provider_model_id model_id = Ok m ->
  convert_chat_completion_request (request_for m) = Ok request' ->
  outcome (_get_client self ctx) = Ok client ->
  create client request' = Raise (BadRequestError (PyDict d)) ->
  d !! "error" = Some (PyDict err) ->
  err !! "code" = Some (PyStr "tool_use_failed") ->
  outcome call
  = Raise (ValueError [PyStr "Groq failed to call a tool"; PyDict err]
             (Some (BadRequestError (PyDict d)))).
Proof.
  intros Hm Hc Hk Hr Hd He.
  destruct (chat_completion_backend_error get_provider_model_id
              convert_chat_completion_request convert_chat_completion_response
              convert_chat_completion_response_stream create self ctx model_id
              messages sampling_params response_format tools tool_choice
              tool_prompt_format stream logprobs tool_config m request' client
              _ Hm Hc Hk Hr) as [H _].
  exact (H d err eq_refl Hd He).
Qed.

(** X2: Any other backend error reaches the caller as it was raised: an exception
    that is no [BadRequestError], and a [BadRequestError] whose body is a
    dictionary without ["error"] member or with an error object of another
    code. *)
Theorem other_backend_errors_reraised (m : string) (request' : gmap string pyval)
    (client : Groq) (e : exn) :
  get_provider_model_id model_id = Ok m ->
  convert_chat_completion_request (request_for m) = Ok request' ->
  outcome (_get_client self ctx) = Ok client ->
  create client request' = Raise e ->
  ((forall body, e <> BadRequestError body)
   \/ (exists d : gmap string pyval,
         e = BadRequestError (PyDict d) /\
         (d !! "error" = None
          \/ exists err : gmap string pyval,
               d !! "error" = Some (PyDict err)
               /\ err !! "code" <> Some (PyStr "tool_use_failed")))) ->
  outcome call = Raise e.
Proof.
  intros Hm Hc Hk Hr H.
  destruct (chat_completion_backend_error get_provider_model_id
              convert_chat_completion_request convert_chat_completion_response
              convert_chat_completion_response_stream create self ctx model_id
              messages sampling_params response_format tools tool_choice
              tool_prompt_format stream logprobs tool_config m request' client
              e Hm Hc Hk Hr) as [_ [H2 [H3 [H4 _]]]].
  destruct H as [H | [d [-> [Hd | [err [Hd He]]]]]].
  - exact (H4 H).
  - exact (H3 d eq_refl Hd).
  - exact (H2 d err eq_refl Hd He).
Qed.

(** X6: Without a key in the configuration or in the request, the call raises
    the error of [_get_client] unchanged (it passes the [except] clause), and
    the backend is not called. *)
Theorem missing_credential_propagates (m : string) (request' : gmap string pyval) :
  get_provider_model_id model_id = Ok m ->
  convert_chat_completion_request (request_for m) = Ok request' ->
  api_key (_config self) = None ->
  request_key ctx = None ->
  outcome call = Raise (ValueError [PyStr missing_key_message] None)
  /\ backend_calls (trace call) = [].
Proof.
  intros Hm Hc Hk Hr. destruct (call_resolved m Hm) as [-> ->].
  rewrite send_cases, Hc, call_backend_cases.
  rewrite (get_client_missing self ctx Hk Hr). simpl.
  split; [reflexivity|].
  destruct (bool_decide (m = "llama-3.2-3b-preview")); reflexivity.
Qed.


End ChatCompletionMore.

(** *** The properties on a concrete adapter *)

Definition keyless_adapter : GroqInferenceAdapter :=
  {| _config := {| api_key := None |} |}.

Definition unknown_model : exn := ValueError [PyStr "unknown model"] None.

(** A call of the concrete adapter of [GroqFacts], with the backend, the
    adapter, the model id and the [stream] flag left open. *)
Definition demo_call (backend : Groq -> gmap string pyval -> result pyval)
    (adapter : GroqInferenceAdapter) (model_id : string) (stream : option bool)
  : M (ChatResult pyval (list pyval)) :=
  chat_completion demo_registry demo_request demo_response demo_stream backend
    adapter no_provider_data model_id [PyStr "hi"] None None None
    (Some auto) None stream None None.

Abbreviation on_demo thm backend adapter model_id stream :=
  (thm demo_registry demo_request demo_response demo_stream backend
     adapter no_provider_data model_id [PyStr "hi"] None None None
     (Some auto) None stream None None).

Definition tool_use_failed_body : gmap string pyval :=
  {[ "error" := PyDict {[ "code" := PyStr "tool_use_failed";
                           "message" := PyStr "no tool" ]} ]}.

Lemma warning_iff_preview_witness :
  warnings (trace (demo_call (answering (PyStr "Hello")) demo_adapter
                     "llama-3.1-8b-instant" (Some false))) = []
  /\ warnings (trace (demo_call (raising unknown_model) keyless_adapter
                        "meta-llama/Llama-3.2-3B-Instruct" None))
     = [preview_warning].
Proof.
  split.
  - exact (on_demo warning_iff_preview (answering (PyStr "Hello")) demo_adapter
             "llama-3.1-8b-instant" (Some false) "llama-3.1-8b-instant" eq_refl).
  - exact (on_demo warning_iff_preview (raising unknown_model) keyless_adapter
             "meta-llama/Llama-3.2-3B-Instruct" None "llama-3.2-3b-preview"
             eq_refl).
Defined.

Lemma answered_call_witness :
  backend_calls (trace (demo_call (answering (PyStr "Hello")) demo_adapter
                          "llama-3.1-8b-instant" (Some true)))
  = [({| client_api_key := "gsk_c" |},
      {[ "model" := PyStr "llama-3.1-8b-instant";
         "messages" := PyList [PyStr "hi"] ]})]
  /\ outcome (demo_call (answering (PyStr "Hello")) demo_adapter
                "llama-3.1-8b-instant" (Some true))
     = Ok (Streaming [PyStr "Hello"]).
Proof.
  exact (on_demo answered_call (answering (PyStr "Hello")) demo_adapter
           "llama-3.1-8b-instant" (Some true) "llama-3.1-8b-instant"
           _ {| client_api_key := "gsk_c" |} (PyStr "Hello")
           eq_refl eq_refl eq_refl eq_refl).
Defined.

Lemma backend_error_raises_witness :
  is_ok (outcome (demo_call (raising (APIError "RateLimitError" PyNone))
                    demo_adapter "llama-3.1-8b-instant" None)) = false
  /\ backend_calls (trace (demo_call (raising (APIError "RateLimitError" PyNone))
                             demo_adapter "llama-3.1-8b-instant" None))
     = [({| client_api_key := "gsk_c" |},
         {[ "model" := PyStr "llama-3.1-8b-instant";
            "messages" := PyList [PyStr "hi"] ]})].
Proof.
  exact (on_demo backend_error_raises (raising (APIError "RateLimitError" PyNone))
           demo_adapter "llama-3.1-8b-instant" None "llama-3.1-8b-instant"
           _ {| client_api_key := "gsk_c" |} (APIError "RateLimitError" PyNone)
           eq_refl eq_refl eq_refl eq_refl).
Defined.

Lemma tool_use_failed_translated_witness :
  outcome (demo_call (raising (BadRequestError (PyDict tool_use_failed_body)))
             demo_adapter "llama-3.1-8b-instant" None)
  = Raise (ValueError
             [PyStr "Groq failed to call a tool";
              PyDict {[ "code" := PyStr "tool_use_failed";
                        "message" := PyStr "no tool" ]}]
             (Some (BadRequestError (PyDict tool_use_failed_body)))).
Proof.
  exact (on_demo tool_use_failed_translated
           (raising (BadRequestError (PyDict tool_use_failed_body)))
           demo_adapter "llama-3.1-8b-instant" None "llama-3.1-8b-instant"
           _ {| client_api_key := "gsk_c" |} tool_use_failed_body _
           eq_refl eq_refl eq_refl eq_refl eq_refl eq_refl).
Defined.

Lemma other_backend_errors_reraised_witness :
  outcome (demo_call (raising (APIError "RateLimitError" PyNone))
             demo_adapter "llama-3.1-8b-instant" None)
  = Raise (APIError "RateLimitError" PyNone).
Proof.
  apply (on_demo other_backend_errors_reraised
           (raising (APIError "RateLimitError" PyNone))
           demo_adapter "llama-3.1-8b-instant" None "llama-3.1-8b-instant"
           {[ "model" := PyStr "llama-3.1-8b-instant";
              "messages" := PyList [PyStr "hi"] ]}
           {| client_api_key := "gsk_c" |} (APIError "RateLimitError" PyNone)
           eq_refl eq_refl eq_refl eq_refl).
  left. intros body H. discriminate H.
Defined.

Lemma missing_credential_propagates_witness :
  outcome (demo_call (answering (PyStr "Hello")) keyless_adapter
             "llama-3.1-8b-instant" None)
  = Raise (ValueError [PyStr missing_key_message] None)
  /\ backend_calls (trace (demo_call (answering (PyStr "Hello")) keyless_adapter
                             "llama-3.1-8b-instant" None)) = [].
Proof.
  exact (on_demo missing_credential_propagates (answering (PyStr "Hello"))
           keyless_adapter "llama-3.1-8b-instant" None "llama-3.1-8b-instant"
           _ eq_refl eq_refl eq_refl eq_refl).
Defined.


End GroqMoreFacts.

(** ** More about the RAG tool's data model *)

Module RagToolMoreFacts.

Import RagTool RagToolExt RagToolFacts.

(** X11: Lookup by value inverts [value]: every member is found by its value, a
    member found by a value has that value, and a string that is no value
    raises. *)
Theorem generator_value_round_trip :
  (forall g, RAGQueryGenerator_call (RAGQueryGenerator.value g) = Ok g)
  /\ (forall v g, RAGQueryGenerator_call v = Ok g -> RAGQueryGenerator.value g = v)
  /\ (forall v, (forall g, RAGQueryGenerator.value g <> v) ->
        is_ok (RAGQueryGenerator_call v) = false).
Proof.
  split; [|split].
  - intros []; reflexivity.
  - intros v g. unfold RAGQueryGenerator_call.
    destruct (List.find _ _) as [g'|] eqn:Hf; [|discriminate].
    intros Heq. inversion Heq; subst g'.
    apply List.find_some in Hf. destruct Hf as [_ Hb].
    apply bool_decide_eq_true_1 in Hb. exact Hb.
  - intros v Hv. unfold RAGQueryGenerator_call.
    destruct (List.find _ _) as [g|] eqn:Hf; [|reflexivity].
    apply List.find_some in Hf. destruct Hf as [_ Hb].
    apply bool_decide_eq_true_1 in Hb. exfalso. exact (Hv g Hb).
Qed.

(** X8: Validation inverts serialisation: the dump of a generator configuration
    validates to that configuration, so that passing the dump of an instance
    to [RAGQueryConfig] is passing the instance. *)
Theorem generator_config_round_trip (c : RAGQueryGeneratorConfig)
    (mt mc : option Z) :
  RAGQueryGeneratorConfig_validate (PyDict (model_dump c)) = Ok c
  /\ RAGQueryConfig_init (Some (Raw (PyDict (model_dump c)))) mt mc
     = RAGQueryConfig_init (Some (Instance c)) mt mc.
Proof.
  assert (H : RAGQueryGeneratorConfig_validate (PyDict (model_dump c)) = Ok c).
  { destruct c as [[s]|[m t]].
    - rewrite validate_default by reflexivity. reflexivity.
    - apply validate_llm; reflexivity. }
  split; [exact H|]. unfold RAGQueryConfig_init. rewrite H. reflexivity.
Qed.

(** X9: What is accepted as a generator configuration: exactly the dictionaries
    tagged ["default"] whose separator is absent or a string, and those tagged
    ["llm"] whose model and template are both present and strings. *)
Theorem generator_config_accepted_iff (v : pyval) :
  is_ok (RAGQueryGeneratorConfig_validate v) = true <->
  exists d : gmap string pyval,
    v = PyDict d /\
    ((d !! "type" = Some (PyStr "default")
      /\ (d !! "separator" = None \/ exists s, d !! "separator" = Some (PyStr s)))
     \/ (d !! "type" = Some (PyStr "llm")
         /\ exists m t, d !! "model" = Some (PyStr m)
                        /\ d !! "template" = Some (PyStr t))).
Proof.
  split.
  - destruct (RAGQueryGeneratorConfig_validate v) as [c|e] eqn:Hv; [|discriminate].
    intros _. destruct (validate_inv v c Hv) as [d [-> [Htag Hfields]]].
    exists d. split; [reflexivity|]. destruct c as [dc|lc]; simpl in *.
    + left. split; [exact Htag|]. destruct Hfields as [H | [H _]]; eauto.
    + right. split; [exact Htag|]. destruct Hfields as [Hm Ht]. eauto.
  - intros [d [-> [[Htag Hsep] | [Htag [m [t [Hm Ht]]]]]]].
    + rewrite (validate_default d Htag).
      destruct Hsep as [-> | [s ->]]; reflexivity.
    + rewrite (validate_llm d m t Htag Hm Ht). reflexivity.
Qed.

(** X10: A key that no class declares has no effect on validation, whatever its
    value. *)
Theorem undeclared_key_ignored (d : gmap string pyval) (k : string) (v : pyval) :
  k ∉ declared_fields ->
  RAGQueryGeneratorConfig_validate (PyDict (<[k:=v]> d))
  = RAGQueryGeneratorConfig_validate (PyDict d).
Proof.
  intros Hk.
  assert (Hne : forall f, f ∈ declared_fields -> <[k:=v]> d !! f = d !! f).
  { intros f Hf. apply lookup_insert_ne. intros ->. exact (Hk Hf). }
  unfold RAGQueryGeneratorConfig_validate, DefaultRAGQueryGeneratorConfig_validate,
    LLMRAGQueryGeneratorConfig_validate, str_field_or, str_field.
  rewrite (Hne "type"), (Hne "separator"), (Hne "model"), (Hne "template")
    by (unfold declared_fields; set_solver).
  reflexivity.
Qed.

Lemma undeclared_key_ignored_witness :
  RAGQueryGeneratorConfig_validate
    (PyDict (<["comment" := PyInt 7]>
               {[ "type" := PyStr "llm"; "model" := PyStr "m";
                  "template" := PyStr "t" ]}))
  = RAGQueryGeneratorConfig_validate
      (PyDict {[ "type" := PyStr "llm"; "model" := PyStr "m";
                 "template" := PyStr "t" ]}).
Proof.
  apply (undeclared_key_ignored
           {[ "type" := PyStr "llm"; "model" := PyStr "m"; "template" := PyStr "t" ]}
           "comment" (PyInt 7)).
  unfold declared_fields. intros H.
  repeat (apply elem_of_cons in H; destruct H as [H | H]; [discriminate H|]).
  apply elem_of_nil in H. exact H.
Defined.

End RagToolMoreFacts.

(** ** The helpers of the inference tests *)

Module TestTextInferenceFacts.

Import Groq GroqUtils TestTextInference.

(** *** Dictionaries built from lists *)

Lemma fold_insert_lookup {A} (key : A -> string) (l : list A) :
  forall (acc : gmap string A) (k : string) (x : A),
    fold_left (fun d y => <[key y := y]> d) l acc !! k = Some x ->
    (x ∈ l /\ key x = k) \/ acc !! k = Some x.
Proof.
  induction l as [|y rest IH]; intros acc k x; simpl.
  - intros H. right. exact H.
  - intros H. destruct (IH _ _ _ H) as [[Hin Hk] | Hacc].
    + left. split; [right; exact Hin | exact Hk].
    + destruct (decide (key y = k)) as [Heq | Hne].
      * subst k. rewrite lookup_insert_eq in Hacc. inversion Hacc; subst.
        left. split; [left | reflexivity].
      * rewrite lookup_insert_ne in Hacc by exact Hne. right. exact Hacc.
Qed.

Lemma fold_insert_lookup_None {A} (key : A -> string) (l : list A) :
  forall (acc : gmap string A) (k : string),
    ((fold_left (fun d y => <[key y := y]> d) l acc) !! k = None) <->
    ((k ∉ map key l) /\ acc !! k = None).
Proof.
  induction l as [|y rest IH]; intros acc k; simpl.
  - split; [intros H; split; [apply not_elem_of_nil | exact H] | intros [_ H]; exact H].
  - rewrite IH, not_elem_of_cons. destruct (decide (key y = k)) as [Heq | Hne].
    + subst k. rewrite lookup_insert_eq. split; [intros [_ H]; discriminate H|].
      intros [[H _] _]. exfalso. exact (H eq_refl).
    + rewrite lookup_insert_ne by exact Hne. split.
      * intros [H1 H2]. split; [split; [intros E; exact (Hne (eq_sym E)) | exact H1] | exact H2].
      * intros [[_ H1] H2]. split; assumption.
Qed.

Lemma by_key_Some {A} (key : A -> string) (l : list A) (k : string) (x : A) :
  by_key key l !! k = Some x -> x ∈ l /\ key x = k.
Proof.
  intros H. destruct (fold_insert_lookup key l ∅ k x H) as [H' | H']; [exact H'|].
  rewrite lookup_empty in H'. discriminate H'.
Qed.

Lemma by_key_None {A} (key : A -> string) (l : list A) (k : string) :
  by_key key l !! k = None <-> k ∉ map key l.
Proof.
  unfold by_key. rewrite fold_insert_lookup_None, lookup_empty. tauto.
Qed.

(** The entry that comes last decides. *)
Lemma by_key_last {A} (key : A -> string) (l : list A) (x : A) :
  by_key key (l ++ [x]) !! key x = Some x.
Proof. unfold by_key. rewrite fold_left_app. simpl. apply lookup_insert_eq. Qed.

(** *** [skip_if_model_doesnt_support_completion] *)

(** X12: A model id that is not listed makes the first lookup raise [KeyError]
    with that id, before anything is printed. *)
Theorem skip_unknown_model (models : list Model.t) (providers : list Provider.t)
    (model_id : string) :
  model_id ∉ map Model.identifier models ->
  skip_if_model_doesnt_support_completion models providers model_id
  = ([], KeyError model_id).
Proof.
  intros H. unfold skip_if_model_doesnt_support_completion.
  apply by_key_None in H. rewrite H. reflexivity.
Qed.

Lemma skip_unknown_model_witness :
  skip_if_model_doesnt_support_completion
    [ {| Model.identifier := "llama"; Model.provider_id := "groq" |} ]
    [ {| Provider.provider_id := "groq"; Provider.provider_type := "remote::groq" |} ]
    "mistral"
  = ([], KeyError "mistral").
Proof.
  apply skip_unknown_model. simpl. intros H.
  apply list_elem_of_singleton in H. discriminate H.
Defined.

(** X13: What each outcome of the helper tells: it skips only for a listed model
    whose listed provider is of one of the three types without completion,
    returns only for one whose provider is of another type, and a [KeyError]
    names the model id when it is not listed, or the provider id of the model
    when that is not listed. *)
Theorem skip_outcome_sound (models : list Model.t) (providers : list Provider.t)
    (model_id : string) :
  match snd (skip_if_model_doesnt_support_completion models providers model_id) with
  | Skipped _ =>
      exists m p, m ∈ models /\ Model.identifier m = model_id
                  /\ p ∈ providers /\ Provider.provider_id p = Model.provider_id m
                  /\ Provider.provider_type p ∈ without_completion
  | Returned =>
      exists m p, m ∈ models /\ Model.identifier m = model_id
                  /\ p ∈ providers /\ Provider.provider_id p = Model.provider_id m
                  /\ Provider.provider_type p ∉ without_completion
  | KeyError k =>
      (k = model_id /\ model_id ∉ map Model.identifier models)
      \/ (exists m, m ∈ models /\ Model.identifier m = model_id
                    /\ k = Model.provider_id m
                    /\ k ∉ map Provider.provider_id providers)
  end.
Proof.
  unfold skip_if_model_doesnt_support_completion.
  destruct (by_key Model.identifier models !! model_id) as [m|] eqn:Hm.
  - destruct (by_key_Some _ _ _ _ Hm) as [Hin Hid].
    destruct (by_key Provider.provider_id providers !! Model.provider_id m)
      as [p|] eqn:Hp.
    + destruct (by_key_Some _ _ _ _ Hp) as [Hpin Hpid].
      case_bool_decide as Ht; simpl; exists m, p; repeat split; assumption.
    + simpl. right. exists m. repeat split; try assumption.
      apply by_key_None. exact Hp.
  - simpl. left. split; [reflexivity|]. apply by_key_None. exact Hm.
Qed.

(** X14: Of two entries with the same identifier the later one decides: a model
    listed last is looked up as if it were listed alone. *)
Theorem skip_last_entry_decides (models : list Model.t) (m : Model.t)
    (providers : list Provider.t) :
  skip_if_model_doesnt_support_completion (models ++ [m]) providers
    (Model.identifier m)
  = skip_if_model_doesnt_support_completion [m] providers (Model.identifier m).
Proof.
  unfold skip_if_model_doesnt_support_completion.
  rewrite (by_key_last Model.identifier models m).
  pose proof (by_key_last Model.identifier [] m) as H. simpl in H.
  rewrite H. reflexivity.
Qed.

(** *** [extract_tool_invocation_content] *)

Lemma append_assoc (a b c : string) : (a +:+ b) +:+ c = a +:+ (b +:+ c).
Proof.
  induction a as [|ch a IH]; [reflexivity|].
  change (String ch ((a +:+ b) +:+ c) = String ch (a +:+ (b +:+ c))).
  rewrite IH. reflexivity.
Qed.

Lemma append_empty_r (a : string) : a +:+ EmptyString = a.
Proof.
  induction a as [|ch a IH]; [reflexivity|].
  change (String ch (a +:+ EmptyString) = String ch a). rewrite IH. reflexivity.
Qed.

Lemma append_eq_empty (a b : string) :
  a +:+ b = EmptyString <-> (a = EmptyString /\ b = EmptyString).
Proof.
  split.
  - destruct a as [|ch a].
    + intros H. split; [reflexivity | exact H].
    + intros H. change (String ch (a +:+ b) = EmptyString) in H. discriminate H.
  - intros [-> ->]. reflexivity.
Qed.

Section ExtractFacts.

Variable str_arguments : gmap string pyval -> string.

Abbreviation invocation' := (invocation str_arguments).
Abbreviation extract' := (extract_tool_invocation_content str_arguments).

Definition is_succeeded (chunk : StreamChunk) : bool :=
  match chunk with
  | tool_call_succeeded _ _ => true
  | _ => false
  end.

Lemma append_empty_l (a : string) : EmptyString +:+ a = a.
Proof. reflexivity. Qed.

Lemma fold_append (response : list StreamChunk) : forall content,
  fold_left (fun content chunk => content +:+ invocation' chunk) response content
  = content +:+ extract' response.
Proof.
  unfold extract_tool_invocation_content.
  induction response as [|chunk rest IH]; intros content; cbn [fold_left].
  - symmetry. apply append_empty_r.
  - rewrite IH, (IH (EmptyString +:+ invocation' chunk)), append_empty_l.
    apply append_assoc.
Qed.

Lemma extract_cons (chunk : StreamChunk) (rest : list StreamChunk) :
  extract' (chunk :: rest) = invocation' chunk +:+ extract' rest.
Proof.
  unfold extract_tool_invocation_content at 1. cbn [fold_left].
  rewrite append_empty_l. apply fold_append.
Qed.

Lemma invocation_empty_iff (chunk : StreamChunk) :
  invocation' chunk = EmptyString <-> is_succeeded chunk = false.
Proof.
  destruct chunk; cbn [invocation is_succeeded]; split; try reflexivity;
    discriminate.
Qed.

(** X15: The content of a response received in two parts is the content of the
    first part followed by that of the second. *)
Theorem extract_app (a b : list StreamChunk) :
  extract' (a ++ b) = extract' a +:+ extract' b.
Proof.
  unfold extract_tool_invocation_content at 1. rewrite fold_left_app.
  fold (extract' a). apply fold_append.
Qed.

(** X16: Only the tool calls that parsed count: text, failed tool calls and the
    final chunk add nothing, and the content is empty exactly when no chunk is
    a succeeded tool call. *)
Theorem extract_only_succeeded (response : list StreamChunk) :
  extract' response = extract' (List.filter is_succeeded response)
  /\ (extract' response = EmptyString
      <-> List.filter is_succeeded response = []).
Proof.
  induction response as [|chunk rest [IH1 IH2]];
    [split; [reflexivity | split; reflexivity]|].
  rewrite extract_cons. simpl. destruct (is_succeeded chunk) eqn:Hs.
  - rewrite extract_cons, <- IH1. split; [reflexivity|].
    split; [|discriminate]. intros H. apply append_eq_empty in H.
    destruct H as [H _]. apply invocation_empty_iff in H. congruence.
  - apply invocation_empty_iff in Hs. rewrite Hs, append_empty_l.
    split; assumption.
Qed.

End ExtractFacts.

End TestTextInferenceFacts.
